(** * Pivio: wallpaper discovery and service lifecycle

    A shallow embedding of the Python sources [config.py], [scanner.py],
    [system.py] and the state-file helpers and handlers of [app.py].

    The program talks to two collaborators that live outside of it: the file
    system and the [systemctl] command.  Both are modelled explicitly:
    - the file system is a store ([World]) that the program reads and
      mutates, plus an oracle ([fault]) that says which operations the
      operating system refuses (permissions, I/O errors, missing ancestors);
    - every [subprocess.run] consults an oracle ([systemctl]) that says how
      the process for that sub-command ends: with an exit code and an
      output, or by failing to start at all.
    Python exceptions are values of [Exn]; a computation is a function from
    the world to a result-or-exception and the next world. *)

From Stdlib Require Import ZArith String Ascii DecimalString DecimalPos.
From Stdlib Require Import Sorting.Sorted Lia.
From stdpp Require Import base gmap strings list.

Open Scope string_scope.
Open Scope Z_scope.

(** ** The Python runtime: strings, integers, exceptions *)

Module Py.

(** Strings are byte strings; only the ASCII part of [str.lower],
    [str.strip] and [int] is modelled. *)

Definition code (c : ascii) : Z := Z.of_N (N_of_ascii c).

Definition lower_char (c : ascii) : ascii :=
  if (65 <=? code c) && (code c <=? 90)
  then ascii_of_N (Z.to_N (code c + 32))
  else c.

Fixpoint lower (s : string) : string :=
  match s with
  | EmptyString => EmptyString
  | String c s' => String (lower_char c) (lower s')
  end.

(** [str.isspace] on ASCII: TAB, LF, VT, FF, CR, FS, GS, RS, US, SPACE. *)
Definition is_space (c : ascii) : bool :=
  let n := code c in
  ((9 <=? n) && (n <=? 13)) || ((28 <=? n) && (n <=? 32)).

Fixpoint lstrip (s : string) : string :=
  match s with
  | EmptyString => EmptyString
  | String c s' => if is_space c then lstrip s' else s
  end.

(** Drops the trailing whitespace: a character is kept when something
    that is kept follows it, or when it is not whitespace. *)
Fixpoint rstrip (s : string) : string :=
  match s with
  | EmptyString => EmptyString
  | String c s' =>
      match rstrip s' with
      | EmptyString => if is_space c then EmptyString else String c EmptyString
      | r => String c r
      end
  end.

Definition strip (s : string) : string := rstrip (lstrip s).

(** [s.replace(old, new)]: every non-overlapping occurrence, left to right.
    [skip] counts the characters of an occurrence that was just replaced
    and that are still to be passed over. *)
Fixpoint replace_from (old new s : string) (skip : nat) : string :=
  match s with
  | EmptyString => EmptyString
  | String c s' =>
      match skip with
      | S k => replace_from old new s' k
      | O =>
          if String.prefix old s
          then new ++ replace_from old new s' (String.length old - 1)
          else String c (replace_from old new s' O)
      end
  end.

Fixpoint intersperse (new s : string) : string :=
  match s with
  | EmptyString => new
  | String c s' => new ++ String c (intersperse new s')
  end.

Definition replace (old new s : string) : string :=
  match old with
  | EmptyString => intersperse new s
  | _ => replace_from old new s O
  end.

Definition endswith_sep (s : string) : bool :=
  match String.rev s with
  | String c _ => Ascii.eqb c "/"
  | EmptyString => false
  end.

Definition startswith_sep (s : string) : bool :=
  match s with
  | String c _ => Ascii.eqb c "/"
  | EmptyString => false
  end.

(** [posixpath.join] for two components, and its fold for more. *)
Definition join2 (a b : string) : string :=
  if startswith_sep b then b
  else if String.eqb a "" || endswith_sep a then a ++ b
  else a ++ "/" ++ b.

Definition join (a : string) (ps : list string) : string :=
  fold_left join2 ps a.

(** [os.path.splitext(p)[1]]: the extension starts at the last dot of the
    last component, unless only dots come before it in that component.
    [ext_scan] goes through one component from the left and remembers the
    suffix starting at the last dot that has a character other than a dot
    somewhere before it. *)
Fixpoint ext_scan (s : string) (seen_nondot : bool) (best : string) : string :=
  match s with
  | EmptyString => best
  | String c s' =>
      if Ascii.eqb c "."
      then ext_scan s' seen_nondot (if seen_nondot then s else best)
      else ext_scan s' true best
  end.

Fixpoint last_component (s acc : string) : string :=
  match s with
  | EmptyString => acc
  | String c s' =>
      if Ascii.eqb c "/" then last_component s' s' else last_component s' acc
  end.

Definition splitext_ext (p : string) : string :=
  ext_scan (last_component p p) false "".

(** [int(s)] in base ten: surrounding whitespace, an optional sign, decimal
    digits with single underscores between digits.  More digits than
    [int_max_str_digits] is a [ValueError] as well. *)
Definition int_max_str_digits : Z := 4300.

Definition digit_of (c : ascii) : option Z :=
  let n := code c in
  if (48 <=? n) && (n <=? 57) then Some (n - 48) else None.

Fixpoint parse_digits (s : string) (acc ndigits : Z) (after_digit : bool)
  : option (Z * Z) :=
  match s with
  | EmptyString => if after_digit then Some (acc, ndigits) else None
  | String c s' =>
      if Ascii.eqb c "_"
      then (if after_digit then parse_digits s' acc ndigits false else None)
      else match digit_of c with
           | Some d => parse_digits s' (10 * acc + d) (ndigits + 1) true
           | None => None
           end
  end.

Definition parse_unsigned (s : string) : option Z :=
  match parse_digits s 0 0 false with
  | Some (n, k) => if k <=? int_max_str_digits then Some n else None
  | None => None
  end.

Definition int (s : string) : option Z :=
  match strip s with
  | String "-" r => Z.opp <$> parse_unsigned r
  | String "+" r => parse_unsigned r
  | r => parse_unsigned r
  end.

(** [str(n)] for an integer. *)
Definition str (n : Z) : string := NilZero.string_of_int (Z.to_int n).

(** The exception classes the program can meet. *)
Inductive Exn : Type :=
  | FileNotFoundError
  | PermissionError
  | FileExistsError
  | IsADirectoryError
  | NotADirectoryError
  | OSError
  | CalledProcessError
  | JSONDecodeError
  | UnicodeDecodeError
  | ValueError
  | AttributeError
  | TypeError
  | RuntimeError.

(** Subclass tests used by the [except] clauses of the program. *)
Definition is_OSError (e : Exn) : bool :=
  match e with
  | FileNotFoundError | PermissionError | FileExistsError
  | IsADirectoryError | NotADirectoryError | OSError => true
  | _ => false
  end.

Definition is_ValueError (e : Exn) : bool :=
  match e with
  | JSONDecodeError | UnicodeDecodeError | ValueError => true
  | _ => false
  end.

Definition is_CalledProcessError (e : Exn) : bool :=
  match e with CalledProcessError => true | _ => false end.

Definition is_JSONDecodeError (e : Exn) : bool :=
  match e with JSONDecodeError => true | _ => false end.

(** Every class above derives from [Exception]. *)
Definition is_Exception (e : Exn) : bool := true.

Inductive Res (A : Type) : Type :=
  | Ok (a : A)
  | Raise (e : Exn).
Arguments Ok {A} a.
Arguments Raise {A} e.

(** Values that [json.load] can return. Numbers are integers. *)
#[warnings="-register-all"]
Inductive Json : Type :=
  | JNull
  | JBool (b : bool)
  | JNum (n : Z)
  | JStr (s : string)
  | JArr (l : list Json)
  | JObj (kvs : list (string * Json)).

(** Truth value of a Python object, as in [if not project_json]. *)
Definition truthy (j : Json) : bool :=
  match j with
  | JNull => false
  | JBool b => b
  | JNum n => negb (n =? 0)
  | JStr s => negb (String.eqb s "")
  | JArr l => match l with [] => false | _ => true end
  | JObj kvs => match kvs with [] => false | _ => true end
  end.

Fixpoint assoc (k : string) (kvs : list (string * Json)) : option Json :=
  match kvs with
  | [] => None
  | (k', v) :: rest => if String.eqb k k' then Some v else assoc k rest
  end.

(** [d.get(k)]: [None] for a missing key; only a dict has the method. *)
Definition get (j : Json) (k : string) : Res Json :=
  match j with
  | JObj kvs => Ok (default JNull (assoc k kvs))
  | _ => Raise AttributeError
  end.

(** [x.lower()]: only a string has the method. *)
Definition lower_method (j : Json) : Res string :=
  match j with
  | JStr s => Ok (lower s)
  | _ => Raise AttributeError
  end.

(** [os.fspath(x)]: the path functions of [os.path] accept strings only. *)
Definition fspath (j : Json) : Res string :=
  match j with
  | JStr s => Ok s
  | _ => Raise TypeError
  end.

End Py.

(** ** config.py *)

Module Config.

Section Paths.
(** [Path.home()] and the working directory at import time. *)
Variables (home cwd : string).

Definition WORKSHOP_PATHS : list string :=
  [ home ++ "/.steam/debian-installation/steamapps/workshop/content/431960";
    home ++ "/.local/share/Steam/steamapps/workshop/content/431960";
    home ++ "/.var/app/com.valvesoftware.Steam/.local/share/Steam/steamapps/workshop/content/431960" ].

Definition VALID_VIDEO_EXTENSIONS : list string := [".mp4"; ".webm"].
Definition PREVIEW_EXTENSIONS : list string :=
  ["preview.jpg"; "preview.png"; "preview.gif"; "preview.jpeg"].

Definition SERVICE_SCRIPT : string := cwd ++ "/pivio-autostart.sh".
Definition SERVICE_NAME : string := "vwallppaper-autostart.service".
(** [SERVICE_PATH.parent] and [SERVICE_PATH]. *)
Definition SERVICE_DIR : string := home ++ "/.config/systemd/user".
Definition SERVICE_PATH : string := home ++ "/.config/systemd/user/vwallppaper-autostart.service".
Definition SERVICE_TEMPLATE_PATH : string := "pivio.service.template".

(** [STATE_FILE.parent] (also [VOLUME_FILE.parent]) and the two files. *)
Definition STATE_DIR : string := home ++ "/.config/wallpaper-manager".
Definition STATE_FILE : string := home ++ "/.config/wallpaper-manager/current.txt".
Definition VOLUME_FILE : string := home ++ "/.config/wallpaper-manager/volume.txt".
End Paths.

End Config.

(** ** The world outside the program *)

Module OS.
Import Py.

(** The sub-commands of [systemctl --user] that the program issues. *)
Inductive Subcmd : Type :=
  | DaemonReload | Enable | Disable | Start | Stop | IsActive | IsEnabled.

(** How a child process ends: it exits with a code and an output, or it
    could not be run at all and [subprocess.run] raises. *)
Inductive ProcOutcome : Type :=
  | Exited (returncode : Z) (stdout : string)
  | LaunchError (e : Exn).

Record CompletedProcess : Type :=
  { returncode : Z; stdout : string }.

Inductive FsOp : Type :=
  | OpChmod (p : string)
  | OpMkdir (p : string)
  | OpOpen (p : string)
  | OpRead (p : string)
  | OpOpenW (p : string)
  | OpWrite (p : string)
  | OpUnlink (p : string)
  | OpListdir (p : string).

(** What the program can be observed to do besides changing files. *)
Inductive Event : Type :=
  | EvRun (c : Subcmd)
  | EvChmod (p : string) (mode : Z)
  | EvPrint
  | EvWarning (title : string)
  | EvCritical (title : string)
  | EvSidebarClear
  | EvSidebarAdd (file_path : string) (is_current : bool).

(** The environment: fixed for a run, chosen freely by a theorem.
    - [systemctl c]: how the process for sub-command [c] ends;
    - [fault op]: the exception with which the operating system refuses
      [op], if it does, for a reason the store below does not show;
    - [json_load p]: what [json.load] makes of the file at [p]. *)
Record Env : Type :=
  { home : string;
    cwd : string;
    systemctl : Subcmd -> ProcOutcome;
    fault : FsOp -> option Exn;
    json_load : string -> Res Json }.

(** The store: regular files with their text, directories with their
    listing in [os.listdir] order, and the events so far (oldest first). *)
Record World : Type :=
  { files : gmap string string;
    dirs : gmap string (list string);
    log : list Event;
    (** the main window's attribute of that name *)
    running_wallpaper_path : option string }.

Definition with_files (f : gmap string string) (w : World) : World :=
  {| files := f; dirs := dirs w; log := log w;
     running_wallpaper_path := running_wallpaper_path w |}.
Definition with_dirs (d : gmap string (list string)) (w : World) : World :=
  {| files := files w; dirs := d; log := log w;
     running_wallpaper_path := running_wallpaper_path w |}.
Definition with_log (l : list Event) (w : World) : World :=
  {| files := files w; dirs := dirs w; log := l;
     running_wallpaper_path := running_wallpaper_path w |}.
Definition with_running (r : option string) (w : World) : World :=
  {| files := files w; dirs := dirs w; log := log w;
     running_wallpaper_path := r |}.

(** A computation: from the world to a value or an exception, and the
    world it leaves. *)
Definition M (A : Type) : Type := World -> Res A * World.

Definition ret {A} (a : A) : M A := fun w => (Ok a, w).

(** Sequencing: an exception of the first computation ends the sequence. *)
Definition bind {A B} (m : M A) (f : A -> M B) : M B := fun w =>
  match m w with
  | (Ok a, w') => f a w'
  | (Raise e, w') => (Raise e, w')
  end.

Declare Scope py_scope.
Delimit Scope py_scope with py.
Bind Scope py_scope with M.
Notation "x ← y ; z" := (bind y (fun x => z))
  (at level 20, y at level 100, z at level 200, only parsing) : py_scope.
Notation "x ;; z" := (bind x (fun _ => z))
  (at level 100, z at level 200, only parsing, right associativity) : py_scope.
Open Scope py_scope.

Definition raise {A} (e : Exn) : M A := fun w => (Raise e, w).
Definition lift {A} (r : Res A) : M A := fun w => (r, w).
Definition emit (ev : Event) : M unit :=
  fun w => (Ok tt, with_log (log w ++ [ev]) w).

(** [try: m  except <classes>: h]: an exception of [m] that [catches]
    accepts is handled by [h] in the world [m] left; any other one goes on. *)
Definition try_except {A} (m : M A) (catches : Exn -> bool) (h : Exn -> M A) : M A :=
  fun w =>
    match m w with
    | (Raise e, w') => if catches e then h e w' else (Raise e, w')
    | ok => ok
    end.

(** Runs [m] and hands over its result or its exception as a value. *)
Definition attempt {A} (m : M A) (catches : Exn -> bool) : M (Res A) :=
  fun w =>
    match m w with
    | (Ok a, w') => (Ok (Ok a), w')
    | (Raise e, w') => if catches e then (Ok (Raise e), w') else (Raise e, w')
    end.

Definition is_file (p : string) (w : World) : bool := bool_decide (is_Some (files w !! p)).
Definition is_dir (p : string) (w : World) : bool := bool_decide (is_Some (dirs w !! p)).

Section Ops.
Variable env : Env.

Definition guard (op : FsOp) : M unit :=
  match fault env op with
  | Some e => raise e
  | None => ret tt
  end.

(** [os.path.exists], [Path.exists], [os.path.isfile], [os.path.isdir]:
    these answer and never raise. *)
Definition exists_ (p : string) : M bool := fun w => (Ok (is_file p w || is_dir p w), w).
Definition isfile (p : string) : M bool := fun w => (Ok (is_file p w), w).
Definition isdir (p : string) : M bool := fun w => (Ok (is_dir p w), w).

Definition chmod (p : string) (mode : Z) : M unit :=
  guard (OpChmod p) ;;
  fun w =>
    if is_file p w || is_dir p w
    then emit (EvChmod p mode) w
    else (Raise FileNotFoundError, w).

(** [Path.mkdir(parents=True, exist_ok=True)]: nothing to do for a
    directory that is there; a regular file in its place is an error.
    Ancestors that cannot be created are a [fault]. *)
Definition mkdir_p (p : string) : M unit :=
  guard (OpMkdir p) ;;
  fun w =>
    if is_dir p w then (Ok tt, w)
    else if is_file p w then (Raise FileExistsError, w)
    else (Ok tt, with_dirs (<[p := []]> (dirs w)) w).

(** [open(p, "r")]. *)
Definition open_r (p : string) : M unit :=
  guard (OpOpen p) ;;
  fun w =>
    if is_file p w then (Ok tt, w)
    else (Raise (if is_dir p w then IsADirectoryError else FileNotFoundError), w).

(** [Path.read_text()]: open, then read and decode. *)
Definition read_text (p : string) : M string :=
  open_r p ;;
  guard (OpRead p) ;;
  fun w =>
    match files w !! p with
    | Some s => (Ok s, w)
    | None => (Raise FileNotFoundError, w)
    end.

(** [open(p, "w")]: creates the file or empties it. *)
Definition open_w (p : string) : M unit :=
  guard (OpOpenW p) ;;
  fun w =>
    if is_dir p w then (Raise IsADirectoryError, w)
    else (Ok tt, with_files (<[p := ""]> (files w)) w).

(** [f.write(s)] on a file just opened for writing, and its close. *)
Definition write (p s : string) : M unit :=
  guard (OpWrite p) ;;
  fun w => (Ok tt, with_files (<[p := s]> (files w)) w).

(** [Path.write_text(s)]. *)
Definition write_text (p s : string) : M unit :=
  open_w p ;; write p s.

(** [Path.unlink()]. *)
Definition unlink (p : string) : M unit :=
  guard (OpUnlink p) ;;
  fun w =>
    match files w !! p with
    | Some _ => (Ok tt, with_files (delete p (files w)) w)
    | None => (Raise (if is_dir p w then IsADirectoryError else FileNotFoundError), w)
    end.

(** [os.listdir(p)]. *)
Definition listdir (p : string) : M (list string) :=
  guard (OpListdir p) ;;
  fun w =>
    match dirs w !! p with
    | Some l => (Ok l, w)
    | None => (Raise (if is_file p w then NotADirectoryError else FileNotFoundError), w)
    end.

(** [subprocess.run(['systemctl', '--user', c, ...], check=check, ...)]. *)
Definition subprocess_run (c : Subcmd) (check : bool) : M CompletedProcess :=
  emit (EvRun c) ;;
  match systemctl env c with
  | LaunchError e => raise e
  | Exited rc out =>
      if check && negb (rc =? 0)
      then raise CalledProcessError
      else ret {| returncode := rc; stdout := out |}
  end.

Definition print : M unit := emit EvPrint.
End Ops.

(** The [systemctl] sub-commands run so far, oldest first. *)
Definition commands (w : World) : list Subcmd :=
  omap (fun ev => match ev with EvRun c => Some c | _ => None end) (log w).

End OS.

(** ** scanner.py *)

Module Scanner.
Import Py OS.

(** The dataclass.  [title] and [wallpaper_type] hold whatever the metadata
    gave, which the annotations do not enforce. *)
Record Wallpaper : Type :=
  { title : Json;
    file_path : string;
    preview_path : option string;
    folder_path : string;
    wallpaper_type : Json }.

Definition mem (x : string) (l : list string) : bool :=
  existsb (String.eqb x) l.

(** [list.sort(key=...)] once the keys are there: a stable sort, here by
    insertion after the elements that are not greater. *)
Fixpoint insert_by_key {A} (k : string) (a : A) (l : list (string * A))
  : list (string * A) :=
  match l with
  | [] => [(k, a)]
  | (k', a') :: r =>
      if String.ltb k k' then (k, a) :: l else (k', a') :: insert_by_key k a r
  end.

Definition sort_by_key {A} (l : list (string * A)) : list A :=
  map snd (fold_left (fun acc ka => insert_by_key (fst ka) (snd ka) acc) l []).

Section Scan.
Variable env : Env.

Definition workshop_paths : list string := Config.WORKSHOP_PATHS (home env).
Definition valid_video_extensions : list string := Config.VALID_VIDEO_EXTENSIONS.
Definition valid_preview_extensions : list string := Config.PREVIEW_EXTENSIONS.

Fixpoint first_dir (ps : list string) : M (option string) :=
  match ps with
  | [] => ret None
  | workshop_path :: ps' =>
      b ← isdir workshop_path;
      if b then ret (Some workshop_path) else first_dir ps'
  end.

Definition get_workshop_path : M (option string) := first_dir workshop_paths.

Definition find_preview (folder_path : string) : M (option string) :=
  preview_files ← listdir env folder_path;
  ret (match find (fun f => mem f valid_preview_extensions) preview_files with
       | Some preview_file => Some (join folder_path [preview_file])
       | None => None
       end).

(** Python's [None] is [JNull].  The file is opened outside of the [try]. *)
Definition parse_project_json (folder_path : string) : M Json :=
  let project_json_path := join folder_path ["project.json"] in
  b ← exists_ project_json_path;
  if b then
    open_r env project_json_path ;;
    try_except
      (lift (json_load env project_json_path))
      (fun e => is_JSONDecodeError e || is_OSError e)
      (fun _ => ret JNull)
  else ret JNull.

(** One turn of the loop of [scan]: [None] stands for [continue]. *)
Definition scan_folder (filter_videos_only : bool)
    (workshop_path wallpaper_folder : string) : M (option Wallpaper) :=
  project_json ← parse_project_json (join workshop_path [wallpaper_folder]);
  let wallpaper_folder_path := join workshop_path [wallpaper_folder] in
  if negb (truthy project_json) then ret None else
  title ← lift (get project_json "title");
  file_name ← lift (get project_json "file");
  wallpaper_type ← lift (get project_json "type");
  skip ← (if filter_videos_only then
            t ← lift (lower_method wallpaper_type);
            if mem t ["scene"; "web"] then ret true else
            f ← lift (fspath file_name);
            let file_ext := lower (splitext_ext f) in
            ret (negb (mem file_ext valid_video_extensions))
          else ret false);
  if skip : bool then ret None else
  f ← lift (fspath file_name);
  let full_file_path := join workshop_path [wallpaper_folder; f] in
  b ← isfile full_file_path;
  if negb b then ret None else
  preview ← find_preview wallpaper_folder_path;
  ret (Some {| title := title;
               file_path := full_file_path;
               preview_path := preview;
               folder_path := wallpaper_folder_path;
               wallpaper_type := wallpaper_type |}).

Fixpoint scan_loop (filter_videos_only : bool) (workshop_path : string)
    (folders : list string) (wallpapers : list Wallpaper) : M (list Wallpaper) :=
  match folders with
  | [] => ret wallpapers
  | wallpaper_folder :: rest =>
      o ← scan_folder filter_videos_only workshop_path wallpaper_folder;
      scan_loop filter_videos_only workshop_path rest
        (match o with Some w => wallpapers ++ [w] | None => wallpapers end)
  end.

(** The keys [w.title.lower()], computed for every element before sorting. *)
Fixpoint sort_keys (ws : list Wallpaper) : M (list (string * Wallpaper)) :=
  match ws with
  | [] => ret []
  | w :: rest =>
      k ← lift (lower_method (title w));
      ks ← sort_keys rest;
      ret ((k, w) :: ks)
  end.

Definition scan (filter_videos_only : bool) : M (list Wallpaper) :=
  workshop_path ← get_workshop_path;
  match workshop_path with
  | None => ret []
  | Some workshop_path =>
      folders ← listdir env workshop_path;
      wallpapers ← scan_loop filter_videos_only workshop_path folders [];
      keyed ← sort_keys wallpapers;
      ret (sort_by_key keyed)
  end.
End Scan.

End Scanner.

(** ** system.py *)

Module System.
Import Py OS.

(** The dict that [get_service_status] returns. *)
Record Status : Type :=
  { active : bool; enabled : bool; status : string }.

Section Sys.
Variable env : Env.

Definition service_path : string := Config.SERVICE_PATH (home env).
Definition service_script : string := Config.SERVICE_SCRIPT (cwd env).
Definition service_template_path : string := Config.SERVICE_TEMPLATE_PATH.
Definition VOLUME_FILE : string := Config.VOLUME_FILE (home env).

Definition get_service_path : string := service_path.
Definition get_service_script_path : string := service_script.

Definition create_service (video_path : string) : M bool :=
  let service_path := get_service_path in
  let service_script_path := get_service_script_path in
  chmod env service_script_path 493 ;;
  mkdir_p env (Config.SERVICE_DIR (home env)) ;;
  try_except
    (template ← read_text env service_template_path;
     let service := replace "{{VIDEO_PATH}}" video_path template in
     let service := replace "{{SERVICE_SCRIPT_PATH}}" service_script_path service in
     open_w env service_path ;;
     write env service_path service ;;
     ret true)
    is_Exception
    (fun _ => print ;; ret false).

Definition reload_daemon : M bool :=
  try_except
    (subprocess_run env DaemonReload true ;; ret true)
    is_CalledProcessError
    (fun _ => ret false).

Definition enable_service : M bool :=
  try_except
    (subprocess_run env Enable true ;; ret true)
    is_CalledProcessError
    (fun _ => ret false).

Definition disable_service : M bool :=
  try_except
    (subprocess_run env Disable true ;; ret true)
    is_CalledProcessError
    (fun _ => print ;; ret false).

Definition start_service : M bool :=
  try_except
    (subprocess_run env Start true ;; ret true)
    is_CalledProcessError
    (fun _ => print ;; ret false).

Definition stop_service : M bool :=
  try_except
    (subprocess_run env Stop true ;; ret true)
    is_CalledProcessError
    (fun _ => print ;; ret false).

(** The dict [result] is updated in place inside the [try], so an
    exception leaves in it what was stored before. *)
Definition get_service_status : M Status :=
  let result := {| active := false; enabled := false; status := "unknown" |} in
  r1 ← attempt (subprocess_run env IsActive false) is_Exception;
  match r1 with
  | Raise _ => ret result
  | Ok active_check =>
      let result := {| active := returncode active_check =? 0;
                       enabled := enabled result;
                       status := strip (stdout active_check) |} in
      r2 ← attempt (subprocess_run env IsEnabled false) is_Exception;
      match r2 with
      | Raise _ => ret result
      | Ok enabled_check =>
          ret {| active := active result;
                 enabled := returncode enabled_check =? 0;
                 status := status result |}
      end
  end.

Definition apply_wallpaper (video_path : string) : M bool :=
  stop_service ;;
  b ← create_service video_path;
  if negb b then ret false else
  reload_daemon ;;
  b ← enable_service;
  if negb b then ret false else
  b ← start_service;
  if negb b then ret false else
  ret true.

Definition save_volume (volume : Z) : M bool :=
  try_except
    (mkdir_p env (Config.STATE_DIR (home env)) ;;
     write_text env VOLUME_FILE (str volume) ;;
     ret true)
    is_Exception
    (fun _ => print ;; ret false).

(** [int] raising [ValueError] is the [None] of [Py.int]. *)
Definition get_volume : M Z :=
  r ← try_except
        (b ← exists_ VOLUME_FILE;
         if b then
           s ← read_text env VOLUME_FILE;
           match int (strip s) with
           | Some n => ret (Some n)
           | None => raise ValueError
           end
         else ret None)
        (fun e => is_ValueError e || is_OSError e)
        (fun _ => ret None);
  ret (default 50 r).
(** The steps of [apply_wallpaper] whose result is tested: unit
    generation, enable and start. *)
Inductive ApplyStep : Type := StepGenerate | StepEnable | StepStart.

(** The [systemctl] sub-commands issued when the sequence ends at a step. *)
Definition commands_through (s : ApplyStep) : list Subcmd :=
  match s with
  | StepGenerate => [Stop]
  | StepEnable => [Stop; DaemonReload; Enable]
  | StepStart => [Stop; DaemonReload; Enable; Start]
  end.

(** [fails_at video_path w s wf]: started in [w], the sequence reaches
    step [s], every tested step before it returned [True], and step [s]
    returns [False], leaving the world [wf].  The results of the stop and
    reload steps are left free. *)
Inductive fails_at (video_path : string) (w : World) : ApplyStep -> World -> Prop :=
  | fails_generate b0 w0 w1 :
      stop_service w = (Ok b0, w0) ->
      create_service video_path w0 = (Ok false, w1) ->
      fails_at video_path w StepGenerate w1
  | fails_enable b0 w0 w1 b2 w2 w3 :
      stop_service w = (Ok b0, w0) ->
      create_service video_path w0 = (Ok true, w1) ->
      reload_daemon w1 = (Ok b2, w2) ->
      enable_service w2 = (Ok false, w3) ->
      fails_at video_path w StepEnable w3
  | fails_start b0 w0 w1 b2 w2 w3 w4 :
      stop_service w = (Ok b0, w0) ->
      create_service video_path w0 = (Ok true, w1) ->
      reload_daemon w1 = (Ok b2, w2) ->
      enable_service w2 = (Ok true, w3) ->
      start_service w3 = (Ok false, w4) ->
      fails_at video_path w StepStart w4.

(** What [get_service_status] starts from. *)
Definition unknown_status : Status :=
  {| active := false; enabled := false; status := "unknown" |}.

(** The status as it follows from how the two queries end. *)
Definition reported_status : Status :=
  match systemctl env IsActive with
  | LaunchError _ => unknown_status
  | Exited rc out =>
      match systemctl env IsEnabled with
      | LaunchError _ =>
          {| active := rc =? 0; enabled := false; status := strip out |}
      | Exited rc' _ =>
          {| active := rc =? 0; enabled := rc' =? 0; status := strip out |}
      end
  end.

(** What a checked command returns, from how its process ends. *)
Definition checked_result (c : Subcmd) : Res bool :=
  match systemctl env c with
  | Exited rc _ => Ok (rc =? 0)
  | LaunchError e => if is_CalledProcessError e then Ok false else Raise e
  end.
End Sys.

End System.

(** ** app.py: the state file and the two handlers *)

Module App.
Import Py OS.

Section Handlers.
Variable env : Env.

Definition STATE_FILE : string := Config.STATE_FILE (home env).

(** The persisted active-wallpaper path: the text of the state file. *)
Definition persisted (w : World) : option string := files w !! STATE_FILE.

Definition save_current_wallpaper (path : string) : M unit :=
  mkdir_p env (Config.STATE_DIR (home env)) ;;
  write_text env STATE_FILE path.

Definition get_current_wallpaper : M (option string) :=
  status ← System.get_service_status env;
  if negb (System.active status) then ret None else
  b ← exists_ STATE_FILE;
  if b then
    s ← read_text env STATE_FILE;
    let path := strip s in
    b' ← exists_ path;
    if negb (String.eqb path "") && b' then ret (Some path) else ret None
  else ret None.

Definition clear_current_wallpaper : M unit :=
  b ← exists_ STATE_FILE;
  if b then unlink env STATE_FILE else ret tt.

Fixpoint add_wallpapers (running : option string) (ws : list Scanner.Wallpaper) : M unit :=
  match ws with
  | [] => ret tt
  | wallpaper :: rest =>
      let is_current :=
        match running with
        | Some r => String.eqb (Scanner.file_path wallpaper) r
        | None => false
        end in
      emit (EvSidebarAdd (Scanner.file_path wallpaper) is_current) ;;
      add_wallpapers running rest
  end.

Definition _load_wallpapers : M unit :=
  emit EvSidebarClear ;;
  running ← get_current_wallpaper;
  (fun w => (Ok tt, with_running running w)) ;;
  wallpapers ← Scanner.scan env true;
  match wallpapers with
  | [] =>
      workshop_path ← Scanner.get_workshop_path env;
      match workshop_path with
      | None => emit (EvWarning "Wallpaper Engine Not Found")
      | Some _ => ret tt
      end
  | _ => add_wallpapers running wallpapers
  end.

Definition _on_volume_changed (value : Z) : M unit :=
  System.save_volume env value ;; ret tt.

(** [current_wallpaper] is the window's selection. *)
Definition _on_apply (current_wallpaper : option Scanner.Wallpaper) : M unit :=
  match current_wallpaper with
  | None => emit (EvWarning "No Selection")
  | Some wallpaper =>
      success ← System.apply_wallpaper env (Scanner.file_path wallpaper);
      if success then
        save_current_wallpaper (Scanner.file_path wallpaper) ;;
        _load_wallpapers
      else emit (EvCritical "Error")
  end.

Definition _on_stop : M unit :=
  System.stop_service env ;;
  System.disable_service env ;;
  clear_current_wallpaper ;;
  _load_wallpapers.
End Handlers.

End App.

(** ** Relations between the world before and the world after *)

Module Frame.
Import Py OS.

(** [m] relates every world to the world it leaves, result or exception. *)
Definition respects (R : World -> World -> Prop) {A} (m : M A) : Prop :=
  forall w, R w (snd (m w)).

(** Same files and directories: what a computation that only reads, runs
    commands and talks to the user achieves. *)
Definition same_store (w w' : World) : Prop :=
  files w' = files w /\ dirs w' = dirs w.

(** The regular file at [p] is as it was. *)
Definition keeps (p : string) (w w' : World) : Prop :=
  files w' !! p = files w !! p.

(** No [systemctl] command was run. *)
Definition same_commands (w w' : World) : Prop :=
  commands w' = commands w.

End Frame.

(** ** Concrete environments and worlds *)

Module Samples.
Import Py OS.

Definition all_ok (c : Subcmd) : ProcOutcome :=
  match c with
  | IsActive => Exited 0 "active"
  | IsEnabled => Exited 0 "enabled"
  | _ => Exited 0 ""
  end.

Definition no_fault (op : FsOp) : option Exn := None.

Definition no_json (p : string) : Res Json := Raise JSONDecodeError.

Definition sample_env (ctl : Subcmd -> ProcOutcome) (flt : FsOp -> option Exn)
    (js : string -> Res Json) : Env :=
  {| home := "/home/u"; cwd := "/opt/pivio";
     systemctl := ctl; fault := flt; json_load := js |}.

(** Everything works. *)
Definition env_ok : Env := sample_env all_ok no_fault no_json.

(** [systemctl --user daemon-reload] exits with 1, the rest works. *)
Definition env_reload_fails : Env :=
  sample_env (fun c => match c with DaemonReload => Exited 1 "" | _ => all_ok c end)
    no_fault no_json.

(** [systemctl --user enable] exits with 1, the rest works. *)
Definition env_enable_fails : Env :=
  sample_env (fun c => match c with Enable => Exited 1 "" | _ => all_ok c end)
    no_fault no_json.

(** [systemctl] is not installed: no sub-command can be run. *)
Definition env_no_systemctl : Env :=
  sample_env (fun _ => LaunchError FileNotFoundError) no_fault no_json.

(** The liveness query answers, the enablement query cannot be run. *)
Definition env_second_query_fails : Env :=
  sample_env (fun c => match c with IsEnabled => LaunchError OSError | _ => all_ok c end)
    no_fault no_json.

(** [stop] and [disable] exit with 5 (unit not loaded), the unit is inactive. *)
Definition env_nothing_running : Env :=
  sample_env (fun c => match c with
                       | Stop | Disable => Exited 5 ""
                       | IsActive => Exited 3 "inactive"
                       | _ => all_ok c
                       end)
    no_fault no_json.

(** The launcher script may not be changed. *)
Definition env_script_protected : Env :=
  sample_env all_ok
    (fun op => match op with
               | OpChmod "/opt/pivio/pivio-autostart.sh" => Some PermissionError
               | _ => None
               end)
    no_json.

(** The configuration directory is read-only: no file in it can be opened
    for writing. *)
Definition env_config_read_only : Env :=
  sample_env all_ok
    (fun op => match op with OpOpenW _ => Some PermissionError | _ => None end)
    no_json.

(** The program directory as installed, and nothing else. *)
Definition installed : World :=
  {| files := {[ "/opt/pivio/pivio-autostart.sh" := "#!/bin/sh";
                 "pivio.service.template" :=
                   "ExecStart={{SERVICE_SCRIPT_PATH}} {{VIDEO_PATH}}" ]};
     dirs := {[ "/opt/pivio" := ["pivio-autostart.sh"] ]};
     log := [];
     running_wallpaper_path := None |}.

(** The same with a wallpaper applied earlier and its video on disk. *)
Definition playing : World :=
  {| files := {[ "/opt/pivio/pivio-autostart.sh" := "#!/bin/sh";
                 "pivio.service.template" :=
                   "ExecStart={{SERVICE_SCRIPT_PATH}} {{VIDEO_PATH}}";
                 "/videos/forest.mp4" := "";
                 "/home/u/.config/wallpaper-manager/current.txt" :=
                   "/videos/forest.mp4" ]};
     dirs := {[ "/opt/pivio" := ["pivio-autostart.sh"];
                "/home/u/.config/wallpaper-manager" := ["current.txt"] ]};
     log := [];
     running_wallpaper_path := Some "/videos/forest.mp4" |}.

Definition with_volume_text (s : string) : World :=
  {| files := {[ "/home/u/.config/wallpaper-manager/volume.txt" := s ]};
     dirs := {[ "/home/u/.config/wallpaper-manager" := ["volume.txt"] ]};
     log := [];
     running_wallpaper_path := None |}.

Definition ocean : Scanner.Wallpaper :=
  {| Scanner.title := JStr "Ocean";
     Scanner.file_path := "/videos/ocean.mp4";
     Scanner.preview_path := None;
     Scanner.folder_path := "/videos";
     Scanner.wallpaper_type := JStr "video" |}.

(** A workshop directory with two item folders, each with its metadata
    file and its video. *)
Definition workshop : string :=
  "/home/u/.local/share/Steam/steamapps/workshop/content/431960".

Definition library : World :=
  {| files :=
       {[ "/home/u/.local/share/Steam/steamapps/workshop/content/431960/111/project.json" := "";
          "/home/u/.local/share/Steam/steamapps/workshop/content/431960/111/ocean.mp4" := "";
          "/home/u/.local/share/Steam/steamapps/workshop/content/431960/222/project.json" := "";
          "/home/u/.local/share/Steam/steamapps/workshop/content/431960/222/forest.mp4" := "" ]};
     dirs :=
       {[ "/home/u/.local/share/Steam/steamapps/workshop/content/431960" := ["111"; "222"];
          "/home/u/.local/share/Steam/steamapps/workshop/content/431960/111" :=
            ["project.json"; "ocean.mp4"];
          "/home/u/.local/share/Steam/steamapps/workshop/content/431960/222" :=
            ["project.json"; "forest.mp4"] ]};
     log := [];
     running_wallpaper_path := None |}.

Definition forest_json : Json :=
  JObj [("title", JStr "Forest"); ("file", JStr "forest.mp4"); ("type", JStr "video")].

(** The metadata of folder 111 is [j]; that of folder 222 is complete. *)
Definition metadata (j : Json) (p : string) : Res Json :=
  if String.eqb p "/home/u/.local/share/Steam/steamapps/workshop/content/431960/111/project.json"
  then Ok j
  else if String.eqb p "/home/u/.local/share/Steam/steamapps/workshop/content/431960/222/project.json"
  then Ok forest_json
  else Raise JSONDecodeError.

Definition env_metadata (j : Json) : Env := sample_env all_ok no_fault (metadata j).

Definition ocean_complete : Json :=
  JObj [("title", JStr "Ocean"); ("file", JStr "ocean.mp4"); ("type", JStr "video")].
Definition ocean_without_type : Json :=
  JObj [("title", JStr "Ocean"); ("file", JStr "ocean.mp4")].
Definition ocean_without_file : Json :=
  JObj [("title", JStr "Ocean"); ("type", JStr "video")].
Definition ocean_without_title : Json :=
  JObj [("file", JStr "ocean.mp4"); ("type", JStr "video")].

(** The worlds that [apply_wallpaper] goes through from [w] as far as the
    enable step. *)
Definition video : string := "/videos/ocean.mp4".
Definition stopped (env : Env) (w : World) : World :=
  snd (System.stop_service env w).
Definition generated (env : Env) (w : World) : World :=
  snd (System.create_service env video (stopped env w)).
Definition reloaded (env : Env) (w : World) : World :=
  snd (System.reload_daemon env (generated env w)).
Definition enable_tried (env : Env) (w : World) : World :=
  snd (System.enable_service env (reloaded env w)).

(** The world after the stop, disable and clear steps of [_on_stop]. *)
Definition cleared (env : Env) (w : World) : World :=
  snd (App.clear_current_wallpaper env
         (snd (System.disable_service env (snd (System.stop_service env w))))).

End Samples.

(** ** Notions used to state properties of the program *)

Module Props.
Import Py OS Samples.

(** The order in which [scan] leaves its items: by key. *)
Definition key_le {A} (x y : string * A) : Prop :=
  String.leb (fst x) (fst y) = true.

(** The sort key of an item of the catalogue: its title in lower case. *)
Definition title_key (item : Scanner.Wallpaper) : string :=
  match Scanner.title item with
  | JStr s => lower s
  | _ => ""
  end.

(** Every element of the list carries the key of its item. *)
Definition keyed_by_title (l : list (string * Scanner.Wallpaper)) : Prop :=
  Forall (fun x => fst x = title_key (snd x)) l.

(** The metadata of [folder] gives nothing to work with: there is no
    [project.json], or [json.load] fails with a [JSONDecodeError] or an
    [OSError], or what it loads is empty ([null], [{}], [[]], ...). *)
Definition metadata_unusable (env : Env) (root folder : string) (w : World) : bool :=
  let p := join (join root [folder]) ["project.json"] in
  if is_file p w || is_dir p w then
    match fault env (OpOpen p) with
    | Some _ => false
    | None =>
        is_file p w &&
        match json_load env p with
        | Raise e => is_JSONDecodeError e || is_OSError e
        | Ok j => negb (truthy j)
        end
    end
  else true.

(** What the videos-only scan of the folders [folders] of [root] promises
    about an item: it comes from one of the folders, its media file is
    [root/folder/file] and is a regular file, its type is a string other
    than [scene] and [web] in any letter case, and the extension of [file]
    is an accepted one in any letter case. *)
Definition video_item (root : string) (folders : list string) (w : World)
    (item : Scanner.Wallpaper) : Prop :=
  exists folder file typ,
    In folder folders /\
    Scanner.file_path item = join root [folder; file] /\
    Scanner.folder_path item = join root [folder] /\
    is_file (Scanner.file_path item) w = true /\
    Scanner.wallpaper_type item = JStr typ /\
    Scanner.mem (lower typ) ["scene"; "web"] = false /\
    Scanner.mem (lower (splitext_ext file)) Config.VALID_VIDEO_EXTENSIONS = true.

(** The title of an item is a string. *)
Definition titled (item : Scanner.Wallpaper) : Prop :=
  exists ttl, Scanner.title item = JStr ttl.

(** The text of the unit file for a video, from the text of the template. *)
Definition unit_text (env : Env) (video_path template : string) : string :=
  replace "{{SERVICE_SCRIPT_PATH}}" (System.service_script env)
    (replace "{{VIDEO_PATH}}" video_path template).

(** [os.chmod] on the launcher script and [mkdir] on the directory of the
    unit file will go through: they are not refused, the script is there,
    and no regular file is in the place of the directory. *)
Definition setup_passes (env : Env) (w : World) : bool :=
  match fault env (OpChmod (System.service_script env)),
        fault env (OpMkdir (Config.SERVICE_DIR (home env))) with
  | None, None =>
      (is_file (System.service_script env) w || is_dir (System.service_script env) w)
      && (is_dir (Config.SERVICE_DIR (home env)) w
          || negb (is_file (Config.SERVICE_DIR (home env)) w))
  | _, _ => false
  end.

(** The template cannot be read: opening or reading it is refused, or it
    is not a regular file. *)
Definition template_unreadable (env : Env) (w : World) : bool :=
  match fault env (OpOpen System.service_template_path),
        fault env (OpRead System.service_template_path) with
  | None, None => negb (is_file System.service_template_path w)
  | _, _ => true
  end.

(** The number that the decimal digits [d] stand for, after the digits
    that gave [acc]. *)
Fixpoint uint_value (d : Decimal.uint) (acc : Z) : Z :=
  match d with
  | Decimal.Nil => acc
  | Decimal.D0 d' => uint_value d' (10 * acc)
  | Decimal.D1 d' => uint_value d' (10 * acc + 1)
  | Decimal.D2 d' => uint_value d' (10 * acc + 2)
  | Decimal.D3 d' => uint_value d' (10 * acc + 3)
  | Decimal.D4 d' => uint_value d' (10 * acc + 4)
  | Decimal.D5 d' => uint_value d' (10 * acc + 5)
  | Decimal.D6 d' => uint_value d' (10 * acc + 6)
  | Decimal.D7 d' => uint_value d' (10 * acc + 7)
  | Decimal.D8 d' => uint_value d' (10 * acc + 8)
  | Decimal.D9 d' => uint_value d' (10 * acc + 9)
  end.


(** The five commands of the controller that are checked for success. *)
Definition controller_command (c : Subcmd) : option (Env -> M bool) :=
  match c with
  | DaemonReload => Some System.reload_daemon
  | Enable => Some System.enable_service
  | Disable => Some System.disable_service
  | Start => Some System.start_service
  | Stop => Some System.stop_service
  | IsActive | IsEnabled => None
  end.

(** The list entry for an item of the catalogue, marked when it is the
    running one. *)
Definition sidebar_entry (running : option string) (item : Scanner.Wallpaper) : Event :=
  EvSidebarAdd (Scanner.file_path item)
    (match running with
     | Some r => String.eqb (Scanner.file_path item) r
     | None => false
     end).

(** The launcher script is installed, the template is not. *)
Definition without_template : World :=
  {| files := {[ "/opt/pivio/pivio-autostart.sh" := "#!/bin/sh";
                 "/home/u/.config/systemd/user/vwallppaper-autostart.service" :=
                   "ExecStart=/opt/pivio/pivio-autostart.sh /videos/forest.mp4" ]};
     dirs := {[ "/home/u/.config/systemd/user" := ["vwallppaper-autostart.service"] ]};
     log := [];
     running_wallpaper_path := None |}.

(** The program as installed, with the unit file of an earlier apply. *)
Definition applied_before : World :=
  {| files := {[ "/opt/pivio/pivio-autostart.sh" := "#!/bin/sh";
                 "pivio.service.template" :=
                   "ExecStart={{SERVICE_SCRIPT_PATH}} {{VIDEO_PATH}}";
                 "/home/u/.config/systemd/user/vwallppaper-autostart.service" :=
                   "ExecStart=/opt/pivio/pivio-autostart.sh /videos/forest.mp4" ]};
     dirs := {[ "/home/u/.config/systemd/user" := ["vwallppaper-autostart.service"] ]};
     log := [];
     running_wallpaper_path := None |}.

(** The volume file may not be opened. *)
Definition env_volume_locked : Env :=
  sample_env all_ok
    (fun op => match op with
               | OpOpen "/home/u/.config/wallpaper-manager/volume.txt" => Some PermissionError
               | _ => None
               end)
    no_json.

(** The library of [library], with the ocean wallpaper applied. *)
Definition library_playing : World :=
  with_files
    (<["/home/u/.config/wallpaper-manager/current.txt" :=
         "/home/u/.local/share/Steam/steamapps/workshop/content/431960/111/ocean.mp4"]>
       (files library))
    library.


Definition ocean_in_library : string :=
  "/home/u/.local/share/Steam/steamapps/workshop/content/431960/111/ocean.mp4".

(** The world after the list was emptied and the current wallpaper looked up. *)
Definition looked_up (env : Env) (w : World) : World :=
  snd (App.get_current_wallpaper env (with_log (log w ++ [EvSidebarClear]) w)).

(** A folder with a project file and several pictures. *)
Definition gallery : World :=
  {| files := {[ "/gallery/project.json" := "";
                 "/gallery/notes.txt" := "";
                 "/gallery/Preview.jpg" := "";
                 "/gallery/preview.png" := "";
                 "/gallery/preview.jpg" := "" ]};
     dirs := {[ "/gallery" := ["notes.txt"; "Preview.jpg"; "preview.png"; "preview.jpg"] ]};
     log := [];
     running_wallpaper_path := None |}.

(** The computation returned, it did not raise. *)
Definition is_ok {A} (r : Res A) : bool :=
  match r with
  | Ok _ => true
  | Raise _ => false
  end.

(** The catalogue of the videos-only scan, empty if the scan raises. *)
Definition catalogue (env : Env) (w : World) : list Scanner.Wallpaper :=
  match fst (Scanner.scan env true w) with
  | Ok ws => ws
  | Raise _ => []
  end.

End Props.

(** ** Reasoning about computations *)

Module FrameFacts.
Import Py OS Frame.

(** Unfolds the sequencing operators in the goal and in the hypotheses. *)
Ltac unfold_m :=
  unfold bind, ret, raise, lift, try_except, attempt, emit, guard in *.

Section Respects.
(** A relation between the world before and the world after, closed
    under doing nothing and under doing one thing after another. *)
Variable R : World -> World -> Prop.
Hypothesis R_refl : forall w, R w w.
Hypothesis R_trans : forall a b c, R a b -> R b c -> R a c.

Lemma respects_still {A} (m : M A) :
  (forall w, snd (m w) = w) -> respects R m.
Proof. intros H w. rewrite H. apply R_refl. Qed.

Lemma respects_ret {A} (a : A) : respects R (ret a).
Proof. apply respects_still. reflexivity. Qed.

Lemma respects_raise {A} (e : Exn) : respects R (@raise A e).
Proof. apply respects_still. reflexivity. Qed.

Lemma respects_lift {A} (r : Res A) : respects R (lift r).
Proof. apply respects_still. reflexivity. Qed.

Lemma respects_guard env op : respects R (guard env op).
Proof.
  apply respects_still. intros w. unfold guard.
  destruct (fault env op); reflexivity.
Qed.

Lemma respects_bind {A B} (m : M A) (f : A -> M B) :
  respects R m -> (forall a, respects R (f a)) -> respects R (bind m f).
Proof.
  intros Hm Hf w. unfold bind.
  specialize (Hm w). destruct (m w) as [[a|e] w']; simpl in *.
  - eapply R_trans; [exact Hm | apply Hf].
  - exact Hm.
Qed.

Lemma respects_try_except {A} (m : M A) c (h : Exn -> M A) :
  respects R m -> (forall e, respects R (h e)) -> respects R (try_except m c h).
Proof.
  intros Hm Hh w. unfold try_except.
  specialize (Hm w). destruct (m w) as [[a|e] w']; simpl in *.
  - exact Hm.
  - destruct (c e); simpl; [eapply R_trans; [exact Hm | apply Hh] | exact Hm].
Qed.

Lemma respects_attempt {A} (m : M A) c :
  respects R m -> respects R (attempt m c).
Proof.
  intros Hm w. unfold attempt.
  specialize (Hm w). destruct (m w) as [[a|e] w']; simpl in *.
  - exact Hm.
  - destruct (c e); exact Hm.
Qed.

End Respects.

Lemma same_store_refl w : same_store w w.
Proof. split; reflexivity. Qed.
Lemma same_store_trans a b c : same_store a b -> same_store b c -> same_store a c.
Proof. intros [? ?] [? ?]. split; congruence. Qed.
Lemma keeps_refl p w : keeps p w w.
Proof. reflexivity. Qed.
Lemma keeps_trans p a b c : keeps p a b -> keeps p b c -> keeps p a c.
Proof. unfold keeps. congruence. Qed.
Lemma same_commands_refl w : same_commands w w.
Proof. reflexivity. Qed.
Lemma same_commands_trans a b c :
  same_commands a b -> same_commands b c -> same_commands a c.
Proof. unfold same_commands. congruence. Qed.
Lemma same_store_keeps p w w' : same_store w w' -> keeps p w w'.
Proof. intros [Hf _]. unfold keeps. rewrite Hf. reflexivity. Qed.

Lemma commands_app w ev :
  commands (with_log (log w ++ [ev]) w)
  = (commands w ++ match ev with EvRun c => [c] | _ => [] end)%list.
Proof.
  unfold commands. simpl. rewrite omap_app. simpl.
  destruct ev; reflexivity.
Qed.

End FrameFacts.

(** ** Facts about the primitives and about the program *)

Module Facts.
Import Py OS Frame FrameFacts.

Create HintDb frame discriminated.

(** Splits a goal [respects R m] along the structure of [m]; what is left
    is about primitives and is looked up in the hint base [frame]. *)
Ltac frame_step Hrefl Htrans :=
  first
    [ solve [auto with frame]
    | apply (respects_ret _ Hrefl)
    | apply (respects_raise _ Hrefl)
    | apply (respects_lift _ Hrefl)
    | apply (respects_guard _ Hrefl)
    | apply (respects_bind _ Htrans)
    | apply (respects_try_except _ Htrans)
    | apply respects_attempt
    | progress intros
    | match goal with
      | |- respects _ (match ?x with _ => _ end) => destruct x
      end ].

Ltac frame Hrefl Htrans := repeat frame_step Hrefl Htrans.

Ltac frame_store := frame same_store_refl same_store_trans.
Ltac frame_keeps p := frame (keeps_refl p) (keeps_trans p).
Ltac frame_commands := frame same_commands_refl same_commands_trans.

Lemma respects_same_store_keeps {A} p (m : M A) :
  respects same_store m -> respects (keeps p) m.
Proof. intros H w. apply same_store_keeps, H. Qed.

Section Primitives.
Variable env : Env.

Lemma emit_same_store ev : respects same_store (emit ev).
Proof. intros w. split; reflexivity. Qed.

Lemma emit_keeps p ev : respects (keeps p) (emit ev).
Proof. intros w. reflexivity. Qed.

Lemma emit_same_commands ev :
  (forall c, ev <> EvRun c) -> respects same_commands (emit ev).
Proof.
  intros H w. unfold same_commands. simpl. rewrite commands_app.
  destruct ev; try apply app_nil_r. exfalso. eapply H. reflexivity.
Qed.

(** The queries leave the world as it is, whatever the relation. *)
Lemma exists_still p w : snd (exists_ p w) = w.
Proof. reflexivity. Qed.
Lemma isfile_still p w : snd (isfile p w) = w.
Proof. reflexivity. Qed.
Lemma isdir_still p w : snd (isdir p w) = w.
Proof. reflexivity. Qed.

Lemma open_r_still p w : snd (open_r env p w) = w.
Proof.
  unfold open_r. unfold_m. destruct (fault env (OpOpen p)); simpl; [reflexivity|].
  destruct (is_file p w); reflexivity.
Qed.

Lemma read_text_still p w : snd (read_text env p w) = w.
Proof.
  unfold read_text. unfold bind at 1.
  pose proof (open_r_still p w) as H.
  destruct (open_r env p w) as [[[]|e] w']; simpl in H; subst w'; [|reflexivity].
  unfold_m. destruct (fault env (OpRead p)); simpl; [reflexivity|].
  destruct (files w !! p); reflexivity.
Qed.

Lemma listdir_still p w : snd (listdir env p w) = w.
Proof.
  unfold listdir. unfold_m. destruct (fault env (OpListdir p)); simpl; [reflexivity|].
  destruct (dirs w !! p); reflexivity.
Qed.

Lemma read_text_ok p w s :
  files w !! p = Some s ->
  fault env (OpOpen p) = None -> fault env (OpRead p) = None ->
  read_text env p w = (Ok s, w).
Proof.
  intros Hs Ho Hr. unfold read_text, open_r, is_file. unfold_m.
  rewrite Ho. simpl. rewrite bool_decide_eq_true_2 by eauto.
  rewrite Hr. unfold ret. rewrite Hs. reflexivity.
Qed.

(** A text that [read_text] returns is the text of the file. *)
Lemma read_text_inv p w s w' :
  read_text env p w = (Ok s, w') -> w' = w /\ files w !! p = Some s.
Proof.
  intros H. pose proof (read_text_still p w) as Hw. rewrite H in Hw. simpl in Hw.
  split; [exact Hw|]. revert H.
  unfold read_text, open_r. unfold_m.
  destruct (fault env (OpOpen p)); simpl; [discriminate|].
  destruct (is_file p w); simpl; [|discriminate].
  destruct (fault env (OpRead p)); simpl; [discriminate|].
  destruct (files w !! p); simpl; [|discriminate]. congruence.
Qed.

Lemma chmod_same_store p mode : respects same_store (chmod env p mode).
Proof.
  intros w. unfold chmod. unfold_m. destruct (fault env (OpChmod p)); simpl.
  - apply same_store_refl.
  - destruct (is_file p w || is_dir p w); split; reflexivity.
Qed.

Lemma chmod_same_commands p mode : respects same_commands (chmod env p mode).
Proof.
  intros w. unfold chmod. unfold_m. destruct (fault env (OpChmod p)); simpl.
  - reflexivity.
  - destruct (is_file p w || is_dir p w); [|reflexivity].
    unfold same_commands. simpl. rewrite commands_app. apply app_nil_r.
Qed.

Lemma mkdir_p_keeps q p : respects (keeps q) (mkdir_p env p).
Proof.
  intros w. unfold mkdir_p. unfold_m. destruct (fault env (OpMkdir p)); simpl.
  - reflexivity.
  - destruct (is_dir p w); [reflexivity|]. destruct (is_file p w); reflexivity.
Qed.

Lemma mkdir_p_same_commands p : respects same_commands (mkdir_p env p).
Proof.
  intros w. unfold mkdir_p. unfold_m. destruct (fault env (OpMkdir p)); simpl.
  - reflexivity.
  - destruct (is_dir p w); [reflexivity|]. destruct (is_file p w); reflexivity.
Qed.

Lemma open_w_keeps q p : q <> p -> respects (keeps q) (open_w env p).
Proof.
  intros Hne w. unfold open_w. unfold_m. destruct (fault env (OpOpenW p)); simpl.
  - reflexivity.
  - destruct (is_dir p w); [reflexivity|].
    unfold keeps. simpl. apply lookup_insert_ne. congruence.
Qed.

Lemma open_w_same_commands p : respects same_commands (open_w env p).
Proof.
  intros w. unfold open_w. unfold_m. destruct (fault env (OpOpenW p)); simpl.
  - reflexivity.
  - destruct (is_dir p w); reflexivity.
Qed.

Lemma write_keeps q p s : q <> p -> respects (keeps q) (write env p s).
Proof.
  intros Hne w. unfold write. unfold_m. destruct (fault env (OpWrite p)); simpl.
  - reflexivity.
  - unfold keeps. simpl. apply lookup_insert_ne. congruence.
Qed.

Lemma write_same_commands p s : respects same_commands (write env p s).
Proof.
  intros w. unfold write. unfold_m. destruct (fault env (OpWrite p)); reflexivity.
Qed.

Lemma subprocess_run_same_store c check :
  respects same_store (subprocess_run env c check).
Proof.
  intros w. unfold subprocess_run. unfold_m.
  destruct (systemctl env c) as [rc out|e]; simpl.
  - destruct (check && negb (rc =? 0)); split; reflexivity.
  - split; reflexivity.
Qed.

(** A run of [systemctl] adds its sub-command to the commands, however
    the process ends. *)
Lemma subprocess_run_commands c check w :
  commands (snd (subprocess_run env c check w)) = (commands w ++ [c])%list.
Proof.
  unfold subprocess_run. unfold_m.
  destruct (systemctl env c) as [rc out|e]; simpl.
  - destruct (check && negb (rc =? 0)); simpl; apply (commands_app w (EvRun c)).
  - apply (commands_app w (EvRun c)).
Qed.
End Primitives.

#[export] Hint Resolve emit_same_store emit_keeps chmod_same_store
  chmod_same_commands mkdir_p_keeps mkdir_p_same_commands
  open_w_same_commands write_same_commands subprocess_run_same_store : frame.
#[export] Hint Extern 1 (respects _ (exists_ _)) =>
  apply respects_still; [auto with frame | apply exists_still] : frame.
#[export] Hint Extern 1 (respects _ (isfile _)) =>
  apply respects_still; [auto with frame | apply isfile_still] : frame.
#[export] Hint Extern 1 (respects _ (isdir _)) =>
  apply respects_still; [auto with frame | apply isdir_still] : frame.
#[export] Hint Extern 1 (respects _ (open_r _ _)) =>
  apply respects_still; [auto with frame | apply open_r_still] : frame.
#[export] Hint Extern 1 (respects _ (read_text _ _)) =>
  apply respects_still; [auto with frame | apply read_text_still] : frame.
#[export] Hint Extern 1 (respects _ (listdir _ _)) =>
  apply respects_still; [auto with frame | apply listdir_still] : frame.
#[export] Hint Resolve same_store_refl keeps_refl same_commands_refl : frame.
#[export] Hint Extern 1 (respects same_commands (emit _)) =>
  apply emit_same_commands; discriminate : frame.
#[export] Hint Extern 1 (respects same_commands (print)) =>
  apply emit_same_commands; discriminate : frame.
#[export] Hint Extern 1 (respects same_store (print)) =>
  apply emit_same_store : frame.
#[export] Hint Extern 1 (respects (keeps _) (print)) =>
  apply emit_keeps : frame.
#[export] Hint Extern 2 (respects (keeps _) (open_w _ _)) =>
  apply open_w_keeps; assumption : frame.
#[export] Hint Extern 2 (respects (keeps _) (write _ _ _)) =>
  apply write_keeps; assumption : frame.
#[export] Hint Extern 5 (respects (keeps _) _) =>
  apply respects_same_store_keeps; solve [auto with frame] : frame.

End Facts.

Module ProgramFacts.
Import Py OS Frame FrameFacts Facts.

Lemma append_inj_l (a b c : string) : (a ++ b)%string = (a ++ c)%string -> b = c.
Proof. induction a as [|x a IH]; simpl; intros H; [exact H | injection H; auto]. Qed.

Lemma state_file_not_service_path h :
  Config.STATE_FILE h <> Config.SERVICE_PATH h.
Proof.
  unfold Config.STATE_FILE, Config.SERVICE_PATH. intros H.
  apply append_inj_l in H. discriminate H.
Qed.

Section Program.
Variable env : Env.

(** *** The five supervisor commands: they leave files and directories
    alone, add their sub-command to the commands, and return a boolean
    exactly when the process could be run. *)

Lemma stop_service_same_store : respects same_store (System.stop_service env).
Proof. unfold System.stop_service. frame_store. Qed.
Lemma disable_service_same_store : respects same_store (System.disable_service env).
Proof. unfold System.disable_service. frame_store. Qed.
Lemma start_service_same_store : respects same_store (System.start_service env).
Proof. unfold System.start_service. frame_store. Qed.
Lemma enable_service_same_store : respects same_store (System.enable_service env).
Proof. unfold System.enable_service. frame_store. Qed.
Lemma reload_daemon_same_store : respects same_store (System.reload_daemon env).
Proof. unfold System.reload_daemon. frame_store. Qed.

Ltac checked c :=
  intros w; unfold_m; unfold subprocess_run; unfold_m; unfold System.checked_result;
  simpl;
  destruct (systemctl env c) as [rc out|e]; simpl;
  [ destruct (rc =? 0) | destruct (is_CalledProcessError e) ];
  (split; [reflexivity|]);
  unfold commands; simpl; rewrite ?omap_app; simpl; rewrite ?app_nil_r;
  reflexivity.

Lemma stop_service_spec w :
  fst (System.stop_service env w) = System.checked_result env Stop /\
  commands (snd (System.stop_service env w)) = (commands w ++ [Stop])%list.
Proof. revert w. unfold System.stop_service, print. checked Stop. Qed.

Lemma disable_service_spec w :
  fst (System.disable_service env w) = System.checked_result env Disable /\
  commands (snd (System.disable_service env w)) = (commands w ++ [Disable])%list.
Proof. revert w. unfold System.disable_service, print. checked Disable. Qed.

Lemma start_service_spec w :
  fst (System.start_service env w) = System.checked_result env Start /\
  commands (snd (System.start_service env w)) = (commands w ++ [Start])%list.
Proof. revert w. unfold System.start_service, print. checked Start. Qed.

Lemma enable_service_spec w :
  fst (System.enable_service env w) = System.checked_result env Enable /\
  commands (snd (System.enable_service env w)) = (commands w ++ [Enable])%list.
Proof. revert w. unfold System.enable_service. checked Enable. Qed.

Lemma reload_daemon_spec w :
  fst (System.reload_daemon env w) = System.checked_result env DaemonReload /\
  commands (snd (System.reload_daemon env w)) = (commands w ++ [DaemonReload])%list.
Proof. revert w. unfold System.reload_daemon. checked DaemonReload. Qed.

(** *** Unit generation *)

Lemma create_service_keeps q video_path :
  q <> System.service_path env ->
  respects (keeps q) (System.create_service env video_path).
Proof.
  intros Hq. unfold System.create_service, System.get_service_path.
  cbv zeta. frame_keeps q.
Qed.

Lemma create_service_same_commands video_path :
  respects same_commands (System.create_service env video_path).
Proof. unfold System.create_service. frame_commands. Qed.

(** *** The whole sequence never touches the state file. *)
Lemma apply_wallpaper_keeps_state video_path :
  respects (keeps (App.STATE_FILE env)) (System.apply_wallpaper env video_path).
Proof.
  pose proof (state_file_not_service_path (home env)) as Hne.
  pose proof (create_service_keeps (App.STATE_FILE env) video_path Hne) as Hc.
  pose proof stop_service_same_store. pose proof reload_daemon_same_store.
  pose proof enable_service_same_store. pose proof start_service_same_store.
  unfold System.apply_wallpaper.
  frame_keeps (App.STATE_FILE env).
Qed.

(** *** Where [apply_wallpaper] ends when a tested step fails. *)
Lemma fails_at_result video_path w s wf :
  System.fails_at env video_path w s wf ->
  System.apply_wallpaper env video_path w = (Ok false, wf).
Proof.
  intros H. unfold System.apply_wallpaper, bind.
  destruct H as [b0 w0 w1 Hstop Hgen | b0 w0 w1 b2 w2 w3 Hstop Hgen Hrel Hen
                | b0 w0 w1 b2 w2 w3 w4 Hstop Hgen Hrel Hen Hst];
    rewrite Hstop, Hgen; simpl; [reflexivity | |];
    rewrite Hrel, Hen; simpl; [reflexivity|].
  rewrite Hst. reflexivity.
Qed.

(** How to show that the enable step is reached and fails: by running
    the steps. *)
Lemma enable_failure_reached w :
  fst (System.stop_service env w) = Ok true ->
  fst (System.create_service env Samples.video (Samples.stopped env w)) = Ok true ->
  fst (System.reload_daemon env (Samples.generated env w)) = Ok true ->
  fst (System.enable_service env (Samples.reloaded env w)) = Ok false ->
  System.fails_at env Samples.video w System.StepEnable (Samples.enable_tried env w).
Proof.
  intros H0 H1 H2 H3.
  apply (System.fails_enable env Samples.video w true (Samples.stopped env w)
           (Samples.generated env w) true (Samples.reloaded env w));
    unfold Samples.enable_tried, Samples.reloaded, Samples.generated,
      Samples.stopped in *.
  - destruct (System.stop_service env w); simpl in *; congruence.
  - destruct (System.create_service env _ _); simpl in *; congruence.
  - destruct (System.reload_daemon env _); simpl in *; congruence.
  - destruct (System.enable_service env _); simpl in *; congruence.
Qed.

(** *** What an [except Exception] achieves, and where it is missing *)

Lemma try_except_all_returns (m : M bool) w :
  exists b, fst (try_except m is_Exception (fun _ => print ;; ret false) w) = Ok b.
Proof.
  unfold try_except. destruct (m w) as [[b|e] w']; simpl; eauto.
Qed.

Lemma save_volume_never_raises v w :
  exists b, fst (System.save_volume env v w) = Ok b.
Proof. apply try_except_all_returns. Qed.

(** Once [chmod] and [mkdir] are through, [create_service] returns. *)
Lemma create_service_returns_after_setup video_path w w1 w2 :
  chmod env (System.service_script env) 493 w = (Ok tt, w1) ->
  mkdir_p env (Config.SERVICE_DIR (home env)) w1 = (Ok tt, w2) ->
  exists b, fst (System.create_service env video_path w) = Ok b.
Proof.
  intros Hc Hm. unfold System.create_service, System.get_service_script_path.
  cbv zeta. unfold bind at 1. rewrite Hc. unfold bind at 1. rewrite Hm.
  apply try_except_all_returns.
Qed.

(** *** The volume file *)

Lemma save_volume_written v w w1 :
  System.save_volume env v w = (Ok true, w1) ->
  files w1 !! System.VOLUME_FILE env = Some (str v).
Proof.
  unfold System.save_volume, write_text, mkdir_p, open_w, write, print.
  unfold_m.
  destruct (fault env (OpMkdir _)); simpl; [discriminate|].
  destruct (is_dir (Config.STATE_DIR _) w); simpl;
    [|destruct (is_file (Config.STATE_DIR _) w); simpl; [discriminate|]];
    (destruct (fault env (OpOpenW _)); simpl; [discriminate|]);
    (match goal with |- context [is_dir (System.VOLUME_FILE env) ?x] =>
       destruct (is_dir (System.VOLUME_FILE env) x) end; simpl; [discriminate|]);
    (destruct (fault env (OpWrite _)); simpl; [discriminate|]);
    intros H; injection H as <-; simpl; apply lookup_insert_eq.
Qed.

Lemma get_volume_reads w s :
  files w !! System.VOLUME_FILE env = Some s ->
  fault env (OpOpen (System.VOLUME_FILE env)) = None ->
  fault env (OpRead (System.VOLUME_FILE env)) = None ->
  System.get_volume env w = (Ok (default 50 (int (strip s))), w).
Proof.
  intros Hs Ho Hr. unfold System.get_volume, try_except, bind at 1 2.
  unfold exists_, is_file. rewrite Hs.
  rewrite bool_decide_eq_true_2 by eauto. simpl.
  unfold bind. rewrite (read_text_ok env _ w s Hs Ho Hr).
  destruct (int (strip s)); reflexivity.
Qed.

Lemma get_volume_absent w :
  files w !! System.VOLUME_FILE env = None ->
  dirs w !! System.VOLUME_FILE env = None ->
  System.get_volume env w = (Ok 50, w).
Proof.
  intros Hf Hd. unfold System.get_volume, try_except, bind at 1 2.
  unfold exists_, is_file, is_dir. rewrite Hf, Hd.
  rewrite !bool_decide_eq_false_2 by (intros [? ?]; discriminate).
  reflexivity.
Qed.
End Program.
End ProgramFacts.

Module HandlerFacts.
Import Py OS Frame FrameFacts Facts ProgramFacts.

Section Handlers.
Variable env : Env.

(** *** The scanner only reads. *)

Lemma first_dir_same_store ps : respects same_store (Scanner.first_dir ps).
Proof. induction ps as [|p ps IH]; simpl; frame_store. Qed.

Lemma get_workshop_path_same_store :
  respects same_store (Scanner.get_workshop_path env).
Proof. apply first_dir_same_store. Qed.

Lemma find_preview_same_store p : respects same_store (Scanner.find_preview env p).
Proof. unfold Scanner.find_preview. frame_store. Qed.

Lemma parse_project_json_same_store p :
  respects same_store (Scanner.parse_project_json env p).
Proof. unfold Scanner.parse_project_json. cbv zeta. frame_store. Qed.

Lemma scan_folder_same_store flt wp f :
  respects same_store (Scanner.scan_folder env flt wp f).
Proof.
  pose proof parse_project_json_same_store. pose proof find_preview_same_store.
  unfold Scanner.scan_folder. cbv zeta. frame_store.
Qed.

Lemma scan_loop_same_store flt wp fs acc :
  respects same_store (Scanner.scan_loop env flt wp fs acc).
Proof.
  pose proof scan_folder_same_store.
  revert acc. induction fs as [|f fs IH]; intros acc; simpl; frame_store.
Qed.

Lemma sort_keys_same_store ws : respects same_store (Scanner.sort_keys ws).
Proof. induction ws as [|x ws IH]; simpl; frame_store. Qed.

Lemma scan_same_store flt : respects same_store (Scanner.scan env flt).
Proof.
  pose proof get_workshop_path_same_store. pose proof scan_loop_same_store.
  pose proof sort_keys_same_store.
  unfold Scanner.scan. frame_store.
Qed.

(** *** The status query only runs commands, and always answers. *)

Lemma get_service_status_same_store :
  respects same_store (System.get_service_status env).
Proof. unfold System.get_service_status. cbv zeta. frame_store. Qed.

Lemma get_service_status_result w :
  fst (System.get_service_status env w) = Ok (System.reported_status env).
Proof.
  unfold System.get_service_status, System.reported_status, subprocess_run. unfold_m.
  simpl. destruct (systemctl env IsActive) as [rc out|e]; simpl; [|reflexivity].
  destruct (systemctl env IsEnabled) as [rc' out'|e']; reflexivity.
Qed.

Lemma get_current_wallpaper_same_store :
  respects same_store (App.get_current_wallpaper env).
Proof.
  pose proof get_service_status_same_store.
  unfold App.get_current_wallpaper. cbv zeta. frame_store.
Qed.

Lemma add_wallpapers_same_store r ws :
  respects same_store (App.add_wallpapers r ws).
Proof. induction ws as [|x ws IH]; simpl; frame_store. Qed.

Lemma _load_wallpapers_same_store : respects same_store (App._load_wallpapers env).
Proof.
  pose proof get_current_wallpaper_same_store. pose proof scan_same_store.
  pose proof get_workshop_path_same_store. pose proof add_wallpapers_same_store.
  assert (Hr : forall r, respects same_store
                 (fun w => (Ok tt, with_running r w) : Res unit * World)).
  { intros r w. split; reflexivity. }
  unfold App._load_wallpapers. frame_store.
Qed.

(** *** Clearing the state file *)
Lemma clear_current_wallpaper_clears w :
  fault env (OpUnlink (App.STATE_FILE env)) = None ->
  is_dir (App.STATE_FILE env) w = false ->
  exists w',
    App.clear_current_wallpaper env w = (Ok tt, w') /\
    App.persisted env w' = None /\ log w' = log w.
Proof.
  intros Hu Hd. unfold App.clear_current_wallpaper, bind, exists_, unlink, guard.
  unfold App.persisted. rewrite Hd, Hu. unfold is_file.
  destruct (files w !! App.STATE_FILE env) as [s|] eqn:Hs.
  - rewrite bool_decide_eq_true_2 by eauto. simpl. unfold bind, ret.
    rewrite Hs. eexists. split; [reflexivity|]. split; [apply lookup_delete_eq | reflexivity].
  - rewrite bool_decide_eq_false_2 by (intros [? ?]; discriminate). simpl.
    exists w. split; [reflexivity|]. split; [exact Hs | reflexivity].
Qed.

Lemma is_dir_same_store p w w' : same_store w w' -> is_dir p w' = is_dir p w.
Proof. intros [_ Hd]. unfold is_dir. rewrite Hd. reflexivity. Qed.

Lemma is_file_same_store p w w' : same_store w w' -> is_file p w' = is_file p w.
Proof. intros [Hf _]. unfold is_file. rewrite Hf. reflexivity. Qed.
End Handlers.
End HandlerFacts.

(** ** The claims *)

Module Claims.
Import Py OS Frame FrameFacts Facts ProgramFacts HandlerFacts Samples.

(** C1, as stated, fails: with a [daemon-reload] that exits with 1, the
    reload step returns [False] and [apply_wallpaper] still goes on to
    enable and start and returns [True]. *)
Lemma apply_wallpaper_ignores_reload_failure :
  fst (System.reload_daemon env_reload_fails installed) = Ok false /\
  fst (System.apply_wallpaper env_reload_fails "/videos/ocean.mp4" installed) = Ok true /\
  commands (snd (System.apply_wallpaper env_reload_fails "/videos/ocean.mp4" installed))
  = [Stop; DaemonReload; Enable; Start].
Proof. vm_compute. repeat split. Qed.

(** C1, amended: when unit generation, enable or start returns [False],
    [apply_wallpaper] returns [False] in the world that step left, and the
    [systemctl] commands issued are those up to that step and no later
    one -- whatever the stop and reload steps returned. *)
Theorem apply_wallpaper_aborts_on_failure env video_path w s wf :
  System.fails_at env video_path w s wf ->
  System.apply_wallpaper env video_path w = (Ok false, wf) /\
  commands wf = (commands w ++ System.commands_through s)%list.
Proof.
  intros H. split; [exact (fails_at_result env video_path w s wf H)|].
  inversion H as [b0 w0 w1 Hstop Hgen | b0 w0 w1 b2 w2 w3 Hstop Hgen Hrel Hen
                 | b0 w0 w1 b2 w2 w3 w4 Hstop Hgen Hrel Hen Hst]; subst;
    pose proof (stop_service_spec env w) as [_ Cstop];
    pose proof (create_service_same_commands env video_path w0) as Cgen;
    rewrite Hstop in Cstop; rewrite Hgen in Cgen; simpl in Cstop, Cgen;
    unfold same_commands in Cgen.
  - simpl. congruence.
  - pose proof (reload_daemon_spec env w1) as [_ Crel].
    pose proof (enable_service_spec env w2) as [_ Cen].
    rewrite Hrel in Crel. rewrite Hen in Cen. simpl in Crel, Cen.
    rewrite Cen, Crel, Cgen, Cstop. simpl. rewrite <- !app_assoc. reflexivity.
  - pose proof (reload_daemon_spec env w1) as [_ Crel].
    pose proof (enable_service_spec env w2) as [_ Cen].
    pose proof (start_service_spec env w3) as [_ Cst].
    rewrite Hrel in Crel. rewrite Hen in Cen. rewrite Hst in Cst.
    simpl in Crel, Cen, Cst.
    rewrite Cst, Cen, Crel, Cgen, Cstop. simpl. rewrite <- !app_assoc. reflexivity.
Qed.

(** An instance: on the installed program, with [enable] exiting with 1,
    the sequence ends after the enable command. *)
Lemma apply_wallpaper_aborts_on_failure_witness :
  System.fails_at env_enable_fails video installed System.StepEnable
    (enable_tried env_enable_fails installed) /\
  System.apply_wallpaper env_enable_fails video installed
  = (Ok false, enable_tried env_enable_fails installed) /\
  commands (enable_tried env_enable_fails installed) = [Stop; DaemonReload; Enable].
Proof.
  assert (H : System.fails_at env_enable_fails video installed System.StepEnable
                (enable_tried env_enable_fails installed)).
  { apply (enable_failure_reached env_enable_fails installed); vm_compute; reflexivity. }
  split; [exact H|].
  exact (apply_wallpaper_aborts_on_failure env_enable_fails video installed
           System.StepEnable _ H).
Defined.

(** C2: when [apply_wallpaper] fails at the enable step, it returns
    [False], the handler [_on_apply] completes by reporting the error, and
    the persisted active-wallpaper path is what it was before the call. *)
Theorem on_apply_enable_failure_keeps_state env wallpaper w wf :
  System.fails_at env (Scanner.file_path wallpaper) w System.StepEnable wf ->
  fst (System.apply_wallpaper env (Scanner.file_path wallpaper) w) = Ok false /\
  fst (App._on_apply env (Some wallpaper) w) = Ok tt /\
  App.persisted env (snd (App._on_apply env (Some wallpaper) w)) = App.persisted env w.
Proof.
  intros H. pose proof (fails_at_result env _ w _ wf H) as Happ.
  pose proof (apply_wallpaper_keeps_state env (Scanner.file_path wallpaper) w) as Hk.
  rewrite Happ in Hk. simpl in Hk.
  unfold App._on_apply, bind. rewrite Happ. simpl.
  repeat split. exact Hk.
Qed.

(** An instance: a wallpaper is playing, applying another one fails at the
    enable step, and the state file still names the first. *)
Lemma on_apply_enable_failure_keeps_state_witness :
  System.fails_at env_enable_fails (Scanner.file_path ocean) playing System.StepEnable
    (enable_tried env_enable_fails playing) /\
  fst (System.apply_wallpaper env_enable_fails (Scanner.file_path ocean) playing) = Ok false /\
  fst (App._on_apply env_enable_fails (Some ocean) playing) = Ok tt /\
  App.persisted env_enable_fails (snd (App._on_apply env_enable_fails (Some ocean) playing))
  = App.persisted env_enable_fails playing.
Proof.
  assert (H : System.fails_at env_enable_fails (Scanner.file_path ocean) playing
                System.StepEnable (enable_tried env_enable_fails playing)).
  { apply (enable_failure_reached env_enable_fails playing); vm_compute; reflexivity. }
  split; [exact H|].
  exact (on_apply_enable_failure_keeps_state env_enable_fails ocean playing _ H).
Defined.

(** C3 fails on the code: a folder whose [project.json] parses but has no
    [type] makes [scan] raise [AttributeError] (no [file]: [TypeError]; no
    [title]: [AttributeError] when sorting), so the complete sibling folder
    is not reported either; with complete metadata both folders are. *)
Theorem scan_missing_field_raises :
  fst (Scanner.scan (env_metadata ocean_without_type) true library) = Raise AttributeError /\
  fst (Scanner.scan (env_metadata ocean_without_file) true library) = Raise TypeError /\
  fst (Scanner.scan (env_metadata ocean_without_title) true library) = Raise AttributeError /\
  (exists ws, fst (Scanner.scan (env_metadata ocean_complete) true library) = Ok ws
              /\ map Scanner.title ws = [JStr "Forest"; JStr "Ocean"]).
Proof.
  repeat split; try (vm_compute; reflexivity).
  eexists. split; vm_compute; reflexivity.
Qed.

(** C4 fails on the code: [os.chmod] on the launcher script is outside of
    the [try], so its [PermissionError], or the [FileNotFoundError] for a
    script that is not there, leaves [create_service] as an exception. *)
Theorem create_service_chmod_error_escapes :
  fst (System.create_service env_script_protected video installed) = Raise PermissionError /\
  fst (System.create_service env_ok video (with_volume_text "50")) = Raise FileNotFoundError.
Proof. split; vm_compute; reflexivity. Qed.

(** C5, as stated, fails: when the liveness query answers and the
    enablement query cannot be run, the result keeps what the first query
    stored, and is not the all-default status. *)
Lemma get_service_status_keeps_first_answer :
  systemctl env_second_query_fails IsActive = Exited 0 "active" /\
  systemctl env_second_query_fails IsEnabled = LaunchError OSError /\
  fst (System.get_service_status env_second_query_fails installed)
  = Ok {| System.active := true; System.enabled := false; System.status := "active" |} /\
  fst (System.get_service_status env_second_query_fails installed)
  <> Ok System.unknown_status.
Proof. repeat split; try (vm_compute; reflexivity). vm_compute. discriminate. Qed.

(** C5, amended: [get_service_status] never raises and changes no file;
    when the liveness query cannot be run it returns the all-default
    status; when the liveness query answers and the enablement query cannot
    be run it returns the liveness answer with [enabled] false. *)
Theorem get_service_status_total env w :
  exists st,
    fst (System.get_service_status env w) = Ok st /\
    same_store w (snd (System.get_service_status env w)) /\
    (forall e, systemctl env IsActive = LaunchError e -> st = System.unknown_status) /\
    (forall rc out e,
        systemctl env IsActive = Exited rc out ->
        systemctl env IsEnabled = LaunchError e ->
        st = {| System.active := rc =? 0; System.enabled := false;
                System.status := strip out |}).
Proof.
  exists (System.reported_status env).
  split; [apply get_service_status_result|].
  split; [apply get_service_status_same_store|].
  unfold System.reported_status. split.
  - intros e He. rewrite He. reflexivity.
  - intros rc out e Ha He. rewrite Ha, He. reflexivity.
Qed.

(** Instances: no [systemctl] at all, and a second query that cannot run. *)
Lemma get_service_status_total_witness :
  fst (System.get_service_status env_no_systemctl installed) = Ok System.unknown_status /\
  fst (System.get_service_status env_second_query_fails installed)
  = Ok {| System.active := true; System.enabled := false; System.status := "active" |}.
Proof.
  split.
  - destruct (get_service_status_total env_no_systemctl installed)
      as (st & Hst & _ & Hfirst & _).
    rewrite Hst. f_equal. apply (Hfirst FileNotFoundError). reflexivity.
  - destruct (get_service_status_total env_second_query_fails installed)
      as (st & Hst & _ & _ & Hsecond).
    rewrite Hst. f_equal. apply (Hsecond 0 "active" OSError); reflexivity.
Defined.

(** C6 fails on the code for the active-wallpaper file: with a
    configuration directory that refuses writes, [save_current_wallpaper]
    raises [PermissionError], where [save_volume] returns [False]. *)
Theorem save_current_wallpaper_error_escapes :
  fst (App.save_current_wallpaper env_config_read_only video installed) = Raise PermissionError /\
  fst (System.save_volume env_config_read_only 50 installed) = Ok false.
Proof. split; vm_compute; reflexivity. Qed.

(** C7, as stated, fails: where [systemctl] cannot be run, the exception
    of the stop command leaves [_on_stop] before the state is cleared, and
    the persisted path is still there. *)
Lemma on_stop_launch_error_keeps_state :
  systemctl env_no_systemctl Stop = LaunchError FileNotFoundError /\
  fst (App._on_stop env_no_systemctl playing) = Raise FileNotFoundError /\
  App.persisted env_no_systemctl (snd (App._on_stop env_no_systemctl playing))
  = Some "/videos/forest.mp4".
Proof. repeat split; vm_compute; reflexivity. Qed.

(** C7, amended: when the stop and disable commands run to completion,
    with whatever exit codes, and the file system does not refuse to remove
    the state file, then the stop, disable and clear steps of [_on_stop]
    complete, both commands were issued, and the persisted path is absent
    from then on: [_on_stop] goes on with the refresh of the list, which
    leaves it absent. *)
Theorem on_stop_clears_state env w rc1 out1 rc2 out2 :
  systemctl env Stop = Exited rc1 out1 ->
  systemctl env Disable = Exited rc2 out2 ->
  fault env (OpUnlink (App.STATE_FILE env)) = None ->
  is_dir (App.STATE_FILE env) w = false ->
  exists w1,
    (System.stop_service env ;; System.disable_service env ;;
     App.clear_current_wallpaper env) w = (Ok tt, w1) /\
    App.persisted env w1 = None /\
    commands w1 = (commands w ++ [Stop; Disable])%list /\
    App._on_stop env w = App._load_wallpapers env w1 /\
    App.persisted env (snd (App._on_stop env w)) = None.
Proof.
  intros Hstop Hdis Hu Hd.
  pose proof (stop_service_spec env w) as [Rs Cs].
  pose proof (stop_service_same_store env w) as Ss.
  destruct (System.stop_service env w) as [r0 w0] eqn:E0. simpl in Rs, Cs, Ss.
  pose proof (disable_service_spec env w0) as [Rd Cd].
  pose proof (disable_service_same_store env w0) as Sd.
  destruct (System.disable_service env w0) as [r0' w0'] eqn:E0'. simpl in Rd, Cd, Sd.
  unfold System.checked_result in Rs, Rd. rewrite Hstop in Rs. rewrite Hdis in Rd.
  subst r0 r0'.
  assert (Hd' : is_dir (App.STATE_FILE env) w0' = false).
  { rewrite (is_dir_same_store _ _ _ Sd), (is_dir_same_store _ _ _ Ss). exact Hd. }
  destruct (clear_current_wallpaper_clears env w0' Hu Hd') as (w1 & Hc & Hp & Hl).
  assert (Hpre : (System.stop_service env ;; System.disable_service env ;;
                  App.clear_current_wallpaper env) w = (Ok tt, w1)).
  { unfold bind. rewrite E0, E0'. exact Hc. }
  assert (Hon : App._on_stop env w = App._load_wallpapers env w1).
  { unfold App._on_stop, bind. rewrite E0, E0', Hc. reflexivity. }
  exists w1. repeat split; try assumption.
  - unfold commands in *. rewrite Hl, Cd, Cs, <- app_assoc. reflexivity.
  - rewrite Hon. unfold App.persisted in *.
    destruct (_load_wallpapers_same_store env w1) as [Hf _].
    rewrite Hf. exact Hp.
Qed.

(** Instances: nothing is running and both commands exit with 5, once
    with a state file left over and once without one. *)
Lemma on_stop_clears_state_witness :
  (exists w1, App.persisted env_nothing_running w1 = None /\
      App._on_stop env_nothing_running playing = App._load_wallpapers env_nothing_running w1) /\
  App.persisted env_nothing_running (snd (App._on_stop env_nothing_running playing)) = None /\
  App.persisted env_nothing_running (snd (App._on_stop env_nothing_running installed)) = None.
Proof.
  destruct (on_stop_clears_state env_nothing_running playing 5 "" 5 "")
    as (w1 & _ & Hp & _ & Hon & Hfin);
    [reflexivity | reflexivity | reflexivity | vm_compute; reflexivity |].
  destruct (on_stop_clears_state env_nothing_running installed 5 "" 5 "")
    as (w2 & _ & _ & _ & _ & Hfin');
    [reflexivity | reflexivity | reflexivity | vm_compute; reflexivity |].
  split; [exists w1; split; assumption|]. split; assumption.
Defined.

(** C8: [get_current_wallpaper] returns [None] whenever the status query
    reports the service as not active; and a path it returns is the
    stripped, non-empty text of the state file, reported only with the
    service active and with that path existing on disk. *)
Theorem get_current_wallpaper_reconciles env w st :
  fst (System.get_service_status env w) = Ok st ->
  (System.active st = false -> fst (App.get_current_wallpaper env w) = Ok None) /\
  (forall p,
      fst (App.get_current_wallpaper env w) = Ok (Some p) ->
      System.active st = true /\
      (exists s, App.persisted env w = Some s /\ p = strip s) /\
      p <> "" /\
      (is_file p w || is_dir p w) = true).
Proof.
  intros Hst.
  pose proof (get_service_status_same_store env w) as Hs.
  destruct (System.get_service_status env w) as [[st'|e] w1] eqn:E;
    simpl in Hst, Hs; [injection Hst as ->|discriminate].
  assert (Hrun : forall B (f : System.Status -> M B),
             bind (System.get_service_status env) f w = f st w1).
  { intros B f. unfold bind. rewrite E. reflexivity. }
  unfold App.get_current_wallpaper. rewrite Hrun.
  destruct (System.active st) eqn:Ha; simpl.
  - split; [discriminate|]. intros p.
    unfold bind at 1. unfold exists_ at 1.
    destruct (is_file (App.STATE_FILE env) w1 || is_dir (App.STATE_FILE env) w1);
      simpl; [|discriminate].
    unfold bind at 1.
    destruct (read_text env (App.STATE_FILE env) w1) as [[s|e] w2] eqn:R;
      simpl; [|discriminate].
    apply read_text_inv in R as [-> Hs1].
    unfold bind, exists_.
    destruct (negb (String.eqb (strip s) "")) eqn:Hne; simpl; [|discriminate].
    destruct (is_file (strip s) w1 || is_dir (strip s) w1) eqn:Hex; simpl;
      [|discriminate].
    intros Hp. injection Hp as <-.
    split; [reflexivity|]. split; [|split].
    + exists s. split; [|reflexivity]. unfold App.persisted.
      destruct Hs as [Hf _]. rewrite <- Hf. exact Hs1.
    + intros Heq. rewrite Heq in Hne. discriminate.
    + rewrite <- (is_file_same_store _ _ _ Hs), <- (is_dir_same_store _ _ _ Hs).
      exact Hex.
  - split; [reflexivity|]. discriminate.
Qed.

(** Instances: a stale state file with an inactive service, and a path
    reported while the service is active. *)
Lemma get_current_wallpaper_reconciles_witness :
  fst (App.get_current_wallpaper env_nothing_running playing) = Ok None /\
  (System.active (System.reported_status env_ok) = true /\
   (exists s, App.persisted env_ok playing = Some s /\ "/videos/forest.mp4" = strip s) /\
   "/videos/forest.mp4" <> "" /\
   (is_file "/videos/forest.mp4" playing || is_dir "/videos/forest.mp4" playing) = true).
Proof.
  split.
  - apply (get_current_wallpaper_reconciles env_nothing_running playing
             (System.reported_status env_nothing_running));
      vm_compute; reflexivity.
  - apply (get_current_wallpaper_reconciles env_ok playing
             (System.reported_status env_ok));
      vm_compute; reflexivity.
Defined.

(** C9: for [v] among 0, 50 and 100, a [save_volume v] that returned
    [True] followed by [get_volume] on a readable file gives [v]; and
    [get_volume] gives 50 when the volume file is absent and when its text
    is not an integer. *)
Theorem volume_round_trip env w :
  (forall v w1,
      In v [0; 50; 100] ->
      System.save_volume env v w = (Ok true, w1) ->
      fault env (OpOpen (System.VOLUME_FILE env)) = None ->
      fault env (OpRead (System.VOLUME_FILE env)) = None ->
      System.get_volume env w1 = (Ok v, w1)) /\
  (files w !! System.VOLUME_FILE env = None ->
   dirs w !! System.VOLUME_FILE env = None ->
   System.get_volume env w = (Ok 50, w)) /\
  (forall s,
      files w !! System.VOLUME_FILE env = Some s ->
      fault env (OpOpen (System.VOLUME_FILE env)) = None ->
      fault env (OpRead (System.VOLUME_FILE env)) = None ->
      int (strip s) = None ->
      System.get_volume env w = (Ok 50, w)).
Proof.
  split; [|split].
  - intros v w1 Hv Hsave Ho Hr.
    rewrite (get_volume_reads env w1 (str v) (save_volume_written env v w w1 Hsave) Ho Hr).
    destruct Hv as [<-|[<-|[<-|[]]]]; reflexivity.
  - apply get_volume_absent.
  - intros s Hs Ho Hr Hint.
    rewrite (get_volume_reads env w s Hs Ho Hr), Hint. reflexivity.
Qed.

(** Instances: 0 and 100 saved and read back, no volume file, and a volume
    file that holds a word. *)
Lemma volume_round_trip_witness :
  fst ((System.save_volume env_ok 0 ;; System.get_volume env_ok) installed) = Ok 0 /\
  fst ((System.save_volume env_ok 100 ;; System.get_volume env_ok) installed) = Ok 100 /\
  System.get_volume env_ok installed = (Ok 50, installed) /\
  System.get_volume env_ok (with_volume_text "loud") = (Ok 50, with_volume_text "loud").
Proof.
  destruct (volume_round_trip env_ok installed) as (Hrt & Habs & _).
  destruct (volume_round_trip env_ok (with_volume_text "loud")) as (_ & _ & Hbad).
  assert (H0 : System.save_volume env_ok 0 installed
               = (Ok true, snd (System.save_volume env_ok 0 installed)))
    by (vm_compute; reflexivity).
  assert (H100 : System.save_volume env_ok 100 installed
                 = (Ok true, snd (System.save_volume env_ok 100 installed)))
    by (vm_compute; reflexivity).
  split; [|split; [|split]].
  - unfold bind. rewrite H0.
    rewrite (Hrt 0 _ ltac:(simpl; auto) H0 eq_refl eq_refl). reflexivity.
  - unfold bind. rewrite H100.
    rewrite (Hrt 100 _ ltac:(simpl; auto) H100 eq_refl eq_refl). reflexivity.
  - apply Habs; vm_compute; reflexivity.
  - apply (Hbad "loud"); vm_compute; reflexivity.
Defined.

(** C10: when the volume file is there, can be read and its text is the
    integer [n], [get_volume] returns [n] as it is, inside the range from 0
    to 100 or not. *)
Theorem get_volume_is_not_clamped env w s n :
  files w !! System.VOLUME_FILE env = Some s ->
  fault env (OpOpen (System.VOLUME_FILE env)) = None ->
  fault env (OpRead (System.VOLUME_FILE env)) = None ->
  int (strip s) = Some n ->
  System.get_volume env w = (Ok n, w).
Proof.
  intros Hs Ho Hr Hint.
  rewrite (get_volume_reads env w s Hs Ho Hr), Hint. reflexivity.
Qed.

(** Instances: -5 (with blanks around it) and 999. *)
Lemma get_volume_is_not_clamped_witness :
  System.get_volume env_ok (with_volume_text " -5 ") = (Ok (-5), with_volume_text " -5 ") /\
  System.get_volume env_ok (with_volume_text "999") = (Ok 999, with_volume_text "999").
Proof.
  split.
  - apply (get_volume_is_not_clamped env_ok _ " -5 "); vm_compute; reflexivity.
  - apply (get_volume_is_not_clamped env_ok _ "999"); vm_compute; reflexivity.
Defined.

End Claims.

(** ** Order of strings and the sort of [scan] *)

Module SortFacts.
Import Py OS Props.
#[local] Open Scope list_scope.

Lemma leb_trans (a b c : string) :
  String.leb a b = true -> String.leb b c = true -> String.leb a c = true.
Proof.
  unfold String.leb. revert b c.
  induction a as [|x a IH]; intros [|y b] [|z c]; simpl; try congruence.
  unfold Ascii.compare.
  destruct (N.compare_spec (N_of_ascii x) (N_of_ascii y)) as [Hxy|Hxy|Hxy];
    destruct (N.compare_spec (N_of_ascii y) (N_of_ascii z)) as [Hyz|Hyz|Hyz];
    destruct (N.compare_spec (N_of_ascii x) (N_of_ascii z)) as [Hxz|Hxz|Hxz];
    try congruence; try (exfalso; lia); try apply IH.
Qed.

Lemma ltb_false_leb (a b : string) :
  String.ltb a b = false <-> String.leb b a = true.
Proof.
  unfold String.ltb, String.leb. rewrite (String.compare_antisym a b).
  destruct (String.compare b a); simpl; split; congruence.
Qed.

Lemma ltb_true_leb (a b : string) :
  String.ltb a b = true -> String.leb a b = true.
Proof.
  unfold String.ltb, String.leb. destruct (String.compare a b); congruence.
Qed.

Section Sort.
Context {A : Type}.

Lemma insert_by_key_perm (k : string) (a : A) l :
  Scanner.insert_by_key k a l ≡ₚ (k, a) :: l.
Proof.
  induction l as [|[k' a'] l IH]; simpl; [reflexivity|].
  destruct (String.ltb k k'); [reflexivity|].
  rewrite IH. apply Permutation_swap.
Qed.

Lemma insert_by_key_sorted (k : string) (a : A) l :
  StronglySorted key_le l -> StronglySorted key_le (Scanner.insert_by_key k a l).
Proof.
  induction l as [|[k' a'] l IH]; simpl; intros Hs.
  - repeat constructor.
  - inversion Hs as [|? ? Hs' Hall]; subst.
    destruct (String.ltb k k') eqn:Hlt.
    + constructor; [exact Hs|]. constructor.
      * apply ltb_true_leb, Hlt.
      * eapply Forall_impl; [exact Hall|]. intros [k2 a2] H2. unfold key_le in *.
        simpl in *. eapply leb_trans; [apply ltb_true_leb, Hlt | exact H2].
    + constructor; [apply IH, Hs'|].
      rewrite (insert_by_key_perm k a l). constructor; [|exact Hall].
      unfold key_le. simpl. apply ltb_false_leb, Hlt.
Qed.

Lemma fold_insert_perm (l acc : list (string * A)) :
  fold_left (fun acc ka => Scanner.insert_by_key (fst ka) (snd ka) acc) l acc
  ≡ₚ acc ++ l.
Proof.
  revert acc. induction l as [|[k a] l IH]; intros acc; simpl.
  - rewrite app_nil_r. reflexivity.
  - rewrite IH, insert_by_key_perm. simpl.
    rewrite (Permutation_middle acc l (k, a)). reflexivity.
Qed.

Lemma fold_insert_sorted (l acc : list (string * A)) :
  StronglySorted key_le acc ->
  StronglySorted key_le
    (fold_left (fun acc ka => Scanner.insert_by_key (fst ka) (snd ka) acc) l acc).
Proof.
  revert acc. induction l as [|[k a] l IH]; intros acc Hs; simpl; [exact Hs|].
  apply IH, insert_by_key_sorted, Hs.
Qed.

(** Equal keys keep their order: among the elements with a given key, an
    insertion goes to the end. *)
Lemma compare_refl (s : string) : String.compare s s = Eq.
Proof.
  induction s as [|c s IH]; simpl; [reflexivity|].
  unfold Ascii.compare. rewrite N.compare_refl. exact IH.
Qed.

(** No element at or after a key above [k] has the key [k]. *)
Lemma filter_above (k k' : string) (l : list (string * A)) :
  String.ltb k k' = true ->
  Forall (fun x => String.leb k' (fst x) = true) l ->
  filter (fun x => fst x = k) l = [].
Proof.
  intros Hlt Hall. induction Hall as [|[k2 a2] l2 H2 _ IH]; [reflexivity|].
  rewrite filter_cons. simpl in *.
  destruct (decide (k2 = k)) as [->|Hne]; [|exact IH].
  apply ltb_false_leb in H2. congruence.
Qed.

Lemma insert_by_key_filter (k0 k : string) (a : A) l :
  StronglySorted key_le l ->
  filter (fun x => fst x = k0) (Scanner.insert_by_key k a l)
  = filter (fun x => fst x = k0) (l ++ [(k, a)]).
Proof.
  induction l as [|[k' a'] l IH]; intros Hs; [reflexivity|].
  inversion Hs as [|? ? Hs' Hall]; subst.
  cbn [Scanner.insert_by_key].
  destruct (String.ltb k k') eqn:Hlt.
  - rewrite <- app_comm_cons, !filter_cons, filter_app. cbn [fst].
    rewrite (filter_cons _ (k, a) []), filter_nil. cbn [fst].
    destruct (decide (k = k0)) as [->|Hne].
    + assert (Hk' : k' <> k0).
      { intros ->. unfold String.ltb in Hlt. rewrite compare_refl in Hlt. discriminate. }
      destruct (decide (k' = k0)); [contradiction|].
      rewrite (filter_above k0 k' l Hlt Hall). reflexivity.
    + rewrite app_nil_r. reflexivity.
  - rewrite <- app_comm_cons, !filter_cons, (IH Hs'). reflexivity.
Qed.

Lemma fold_insert_filter (k0 : string) (l acc : list (string * A)) :
  StronglySorted key_le acc ->
  filter (fun x => fst x = k0)
    (fold_left (fun acc ka => Scanner.insert_by_key (fst ka) (snd ka) acc) l acc)
  = filter (fun x => fst x = k0) (acc ++ l).
Proof.
  revert acc. induction l as [|[k a] l IH]; intros acc Hs; simpl.
  - rewrite app_nil_r. reflexivity.
  - rewrite IH by (apply insert_by_key_sorted, Hs).
    change ((k, a) :: l) with ([(k, a)] ++ l).
    rewrite !filter_app, (insert_by_key_filter k0 k a acc Hs), filter_app.
    rewrite <- app_assoc. reflexivity.
Qed.
End Sort.

End SortFacts.

(** ** Facts about the scanner *)

Module ScannerFacts.
Import Py OS Frame FrameFacts Facts Props SortFacts.
#[local] Open Scope list_scope.

Ltac frame_still := frame (@eq_refl World) (@eq_trans World).

Section Scanner.
Variable env : Env.

(** Taking a sequence that returned apart. *)
Lemma bind_ok_inv {A B} (m : M A) (f : A -> M B) w b w' :
  bind m f w = (Ok b, w') ->
  exists a w1, m w = (Ok a, w1) /\ f a w1 = (Ok b, w').
Proof.
  unfold bind. destruct (m w) as [[a|e] w1]; [eauto | discriminate].
Qed.

Lemma lift_ok_inv {A} (r : Res A) w a w' :
  lift r w = (Ok a, w') -> r = Ok a /\ w' = w.
Proof. unfold lift. intros H. injection H as -> ->. auto. Qed.

(** A computation that returns [a] returns it in the world it leaves. *)
Lemma returned {A} (m : M A) w a :
  fst (m w) = Ok a -> m w = (Ok a, snd (m w)).
Proof. destruct (m w) as [r w1]. simpl. intros ->. reflexivity. Qed.

Lemma ret_ok_inv {A} (a : A) w b w' :
  ret a w = (Ok b, w') -> b = a /\ w' = w.
Proof. unfold ret. intros H. split; congruence. Qed.

(** *** The scanner leaves the world exactly as it is. *)

Lemma first_dir_still ps : respects eq (Scanner.first_dir ps).
Proof. induction ps as [|p ps IH]; simpl; frame_still. Qed.

Lemma find_preview_still p : respects eq (Scanner.find_preview env p).
Proof. unfold Scanner.find_preview. frame_still. Qed.

Lemma parse_project_json_still p : respects eq (Scanner.parse_project_json env p).
Proof. unfold Scanner.parse_project_json. cbv zeta. frame_still. Qed.

Lemma scan_folder_still flt root f : respects eq (Scanner.scan_folder env flt root f).
Proof.
  pose proof parse_project_json_still. pose proof find_preview_still.
  unfold Scanner.scan_folder. cbv zeta. frame_still.
Qed.

Lemma scan_loop_still flt root fs acc :
  respects eq (Scanner.scan_loop env flt root fs acc).
Proof.
  pose proof scan_folder_still.
  revert acc. induction fs as [|f fs IH]; intros acc; simpl; frame_still.
Qed.

Lemma sort_keys_still ws : respects eq (Scanner.sort_keys ws).
Proof. induction ws as [|x ws IH]; simpl; frame_still. Qed.

Lemma scan_still flt : respects eq (Scanner.scan env flt).
Proof.
  pose proof first_dir_still. pose proof scan_loop_still. pose proof sort_keys_still.
  unfold Scanner.scan, Scanner.get_workshop_path. frame_still.
Qed.

(** *** The content root *)

Lemma first_dir_find ps w :
  Scanner.first_dir ps w = (Ok (find (fun p => is_dir p w) ps), w).
Proof.
  induction ps as [|p ps IH]; simpl; [reflexivity|].
  unfold bind, isdir. destruct (is_dir p w); [reflexivity | exact IH].
Qed.

Lemma get_workshop_path_first_hit_aux w :
  Scanner.get_workshop_path env w
  = (Ok (find (fun p => is_dir p w) (Config.WORKSHOP_PATHS (home env))), w).
Proof. apply first_dir_find. Qed.

(** *** One folder *)

(** A folder whose metadata is unusable is passed over. *)
Lemma scan_folder_unusable flt root folder w :
  metadata_unusable env root folder w = true ->
  Scanner.scan_folder env flt root folder w = (Ok None, w).
Proof.
  unfold metadata_unusable, Scanner.scan_folder, Scanner.parse_project_json.
  cbv zeta. unfold bind at 1 2. unfold exists_ at 1.
  destruct (is_file _ w || is_dir _ w); simpl; [|reflexivity].
  unfold open_r, guard, bind at 1 2.
  destruct (fault env (OpOpen _)); simpl; [discriminate|].
  destruct (is_file _ w); simpl; [|discriminate].
  unfold try_except, lift.
  destruct (json_load env _) as [j|e]; simpl.
  - intros Hj. rewrite Hj. reflexivity.
  - intros He. rewrite He. reflexivity.
Qed.

(** What a folder that is kept looks like. *)
Lemma scan_folder_item root folder w item w' :
  Scanner.scan_folder env true root folder w = (Ok (Some item), w') ->
  w' = w /\ video_item root [folder] w item.
Proof.
  intros H.
  pose proof (scan_folder_still true root folder w) as Hw.
  rewrite H in Hw. simpl in Hw. subst w'. split; [reflexivity|]. revert H.
  unfold Scanner.scan_folder. cbv zeta. intros H.
  apply bind_ok_inv in H as (j & w1 & Hj & H).
  pose proof (parse_project_json_still (join root [folder]) w) as Hp.
  rewrite Hj in Hp. simpl in Hp. subst w1.
  destruct (truthy j); cbn [negb] in H; [|discriminate].
  apply bind_ok_inv in H as (ttl & ? & [_ ->]%lift_ok_inv & H).
  apply bind_ok_inv in H as (fl & ? & [Hfl ->]%lift_ok_inv & H).
  apply bind_ok_inv in H as (ty & ? & [Hty ->]%lift_ok_inv & H).
  apply bind_ok_inv in H as (skip & w1 & Hskip & H).
  apply bind_ok_inv in Hskip as (t & ? & [Ht ->]%lift_ok_inv & Hskip).
  destruct ty as [| | |typ| |]; try discriminate. injection Ht as <-.
  destruct (Scanner.mem (lower typ) ["scene"; "web"]) eqn:Hscene.
  { apply ret_ok_inv in Hskip as [-> ->]. discriminate. }
  apply bind_ok_inv in Hskip as (file & ? & [Hfile ->]%lift_ok_inv & Hskip).
  destruct fl as [| | |file'| |]; try discriminate. injection Hfile as ->.
  apply ret_ok_inv in Hskip as [-> ->].
  destruct (Scanner.mem (lower (splitext_ext file)) Scanner.valid_video_extensions)
    eqn:Hext; cbn [negb] in H; [|discriminate].
  apply bind_ok_inv in H as (f' & ? & [Hf' ->]%lift_ok_inv & H).
  injection Hf' as <-.
  apply bind_ok_inv in H as (b & ? & Hb & H).
  apply (ret_ok_inv (is_file (join root [folder; file]) w)) in Hb as [-> ->].
  destruct (is_file (join root [folder; file]) w) eqn:Hisfile; cbn [negb] in H;
    [|discriminate].
  apply bind_ok_inv in H as (pv & w2 & Hpv & H).
  injection H as <- _.
  exists folder, file, typ. simpl. repeat split; auto.
Qed.

(** *** The loop *)

Lemma scan_loop_step flt root folder rest acc w :
  Scanner.scan_loop env flt root (folder :: rest) acc w
  = match Scanner.scan_folder env flt root folder w with
    | (Ok o, _) =>
        Scanner.scan_loop env flt root rest
          (match o with Some item => acc ++ [item] | None => acc end) w
    | (Raise e, _) => (Raise e, w)
    end.
Proof.
  simpl. unfold bind.
  pose proof (scan_folder_still flt root folder w) as Hw.
  destruct (Scanner.scan_folder env flt root folder w) as [[o|e] w1];
    simpl in Hw; subst w1; reflexivity.
Qed.

(** A folder that is passed over can as well not be there. *)
Lemma scan_loop_skip flt root before folder after acc w :
  Scanner.scan_folder env flt root folder w = (Ok None, w) ->
  Scanner.scan_loop env flt root (before ++ folder :: after) acc w
  = Scanner.scan_loop env flt root (before ++ after) acc w.
Proof.
  intros Hskip. revert acc.
  induction before as [|x before IH]; intros acc.
  - rewrite !app_nil_l, scan_loop_step, Hskip. reflexivity.
  - rewrite <- !app_comm_cons, !scan_loop_step.
    destruct (Scanner.scan_folder env flt root x w) as [[o|e] w1]; [apply IH|reflexivity].
Qed.

(** The items of the videos-only loop are the ones it started with and
    items of the folders it went through. *)
Lemma scan_loop_items root folders acc w ws w' :
  Scanner.scan_loop env true root folders acc w = (Ok ws, w') ->
  w' = w /\
  exists found, ws = acc ++ found /\ Forall (video_item root folders w) found.
Proof.
  revert acc. induction folders as [|f folders IH]; intros acc H.
  - injection H as <- <-. split; [reflexivity|]. exists []. rewrite app_nil_r. auto.
  - rewrite scan_loop_step in H.
    destruct (Scanner.scan_folder env true root f w) as [[o|e] w1] eqn:Hf;
      [|discriminate].
    apply IH in H as [-> (found & -> & Hall)]. split; [reflexivity|].
    assert (Hmono : Forall (video_item root (f :: folders) w) found).
    { eapply Forall_impl; [exact Hall|].
      intros item (fo & fi & ty & Hin & Hrest).
      exists fo, fi, ty. split; [right; exact Hin | exact Hrest]. }
    destruct o as [item|].
    + exists (item :: found). rewrite <- app_assoc. split; [reflexivity|].
      constructor; [|exact Hmono].
      apply scan_folder_item in Hf as [_ (fo & fi & ty & [<-|[]] & Hrest)].
      exists f, fi, ty. split; [left; reflexivity | exact Hrest].
    + exists found. split; [reflexivity | exact Hmono].
Qed.

(** *** The keys and the sort *)

Lemma sort_keys_ok ws w keyed w' :
  Scanner.sort_keys ws w = (Ok keyed, w') ->
  w' = w /\ keyed = map (fun item => (title_key item, item)) ws /\ Forall titled ws.
Proof.
  revert keyed. induction ws as [|item ws IH]; intros keyed H; simpl in H.
  - injection H as <- <-. auto.
  - apply bind_ok_inv in H as (k & ? & [Hk ->]%lift_ok_inv & H).
    apply bind_ok_inv in H as (ks & w1 & Hks & H).
    injection H as <- <-.
    apply IH in Hks as (-> & -> & Hall). split; [reflexivity|].
    unfold title_key. destruct (Scanner.title item) as [| | |s| |] eqn:Ht;
      try discriminate.
    injection Hk as <-. split; [simpl; rewrite Ht; reflexivity|].
    constructor; [exists s; exact Ht | exact Hall].
Qed.

(** The keys can be computed exactly when every title is a string. *)
Lemma sort_keys_titled ws w :
  Forall titled ws ->
  Scanner.sort_keys ws w = (Ok (map (fun item => (title_key item, item)) ws), w).
Proof.
  induction 1 as [|item ws [s Hs] _ IH]; simpl; [reflexivity|].
  unfold bind, lift. rewrite Hs. simpl. rewrite IH.
  unfold title_key. rewrite Hs. reflexivity.
Qed.

(** What [scan] is made of, once it returned. *)
Lemma scan_ok_inv flt w ws w' :
  Scanner.scan env flt w = (Ok ws, w') ->
  w' = w /\
  ((find (fun p => is_dir p w) (Config.WORKSHOP_PATHS (home env)) = None /\ ws = []) \/
   exists root folders collected,
     find (fun p => is_dir p w) (Config.WORKSHOP_PATHS (home env)) = Some root /\
     dirs w !! root = Some folders /\
     Scanner.scan_loop env flt root folders [] w = (Ok collected, w) /\
     Forall titled collected /\
     ws = Scanner.sort_by_key (map (fun item => (title_key item, item)) collected)).
Proof.
  intros H. pose proof (scan_still flt w) as Hw. rewrite H in Hw. simpl in Hw.
  subst w'. split; [reflexivity|]. revert H.
  unfold Scanner.scan, Scanner.get_workshop_path. intros H.
  apply bind_ok_inv in H as (o & w1 & Ho & H).
  rewrite first_dir_find in Ho. apply ret_ok_inv in Ho as [-> ->].
  unfold Scanner.workshop_paths in H.
  destruct (find _ _) as [root|] eqn:Hroot.
  - right.
    apply bind_ok_inv in H as (folders & w1 & Hl & H).
    pose proof (listdir_still env root w) as Hw1. rewrite Hl in Hw1. simpl in Hw1.
    subst w1.
    apply bind_ok_inv in H as (collected & w1 & Hc & H).
    pose proof (scan_loop_still flt root folders [] w) as Hw1.
    rewrite Hc in Hw1. simpl in Hw1. subst w1.
    apply bind_ok_inv in H as (keyed & w1 & Hk & H).
    apply sort_keys_ok in Hk as (-> & -> & Htitled).
    apply ret_ok_inv in H as [-> _].
    exists root, folders, collected. repeat split; auto.
    revert Hl. unfold listdir. intros Hl.
    apply bind_ok_inv in Hl as (u & w1 & Hg & Hl).
    unfold guard in Hg. destruct (fault env _); [discriminate|].
    apply ret_ok_inv in Hg as [_ ->].
    destruct (dirs w !! root); [congruence | discriminate].
  - left. apply ret_ok_inv in H as [-> _]. auto.
Qed.

(** A scan that returns returns its catalogue in the world it started in. *)
Lemma scan_returned w :
  is_ok (fst (Scanner.scan env true w)) = true ->
  Scanner.scan env true w = (Ok (catalogue env w), w).
Proof.
  unfold catalogue. pose proof (scan_still true w) as Hw.
  destruct (Scanner.scan env true w) as [[ws|e] w1]; simpl in *;
    [intros _; subst w1; reflexivity | discriminate].
Qed.
End Scanner.

(** *** From the sorted keys to the sorted items *)

Lemma keyed_by_title_map ws :
  keyed_by_title (map (fun item => (title_key item, item)) ws).
Proof. induction ws; constructor; auto. Qed.

Lemma sorted_items (l : list (string * Scanner.Wallpaper)) :
  keyed_by_title l ->
  StronglySorted key_le l ->
  StronglySorted (fun a b => String.leb (title_key a) (title_key b) = true) (map snd l).
Proof.
  intros Hk Hs. induction Hs as [|[k item] l Hs IH Hall]; simpl; [constructor|].
  inversion Hk as [|? ? Hx Hk']; subst. simpl in Hx. subst k.
  constructor; [apply IH, Hk'|].
  rewrite Forall_map. rewrite Forall_forall in Hall, Hk'. apply Forall_forall.
  intros [k2 item2] Hin. specialize (Hall _ Hin). specialize (Hk' _ Hin).
  unfold key_le in Hall. simpl in *. subst k2. exact Hall.
Qed.

Lemma filter_items k (l : list (string * Scanner.Wallpaper)) :
  keyed_by_title l ->
  filter (fun item => title_key item = k) (map snd l)
  = map snd (filter (fun x => fst x = k) l).
Proof.
  induction 1 as [|[k2 item2] l Hx _ IH]; [reflexivity|].
  simpl in Hx. subst k2. cbn [map]. rewrite !filter_cons. cbn [fst snd].
  destruct (decide (title_key item2 = k)); cbn [map]; rewrite IH; reflexivity.
Qed.

(** The sort of [scan]: ascending by key, nothing lost or added, and
    items with the same key in the order they were found. *)
Lemma sort_by_key_spec ws :
  let sorted := Scanner.sort_by_key (map (fun item => (title_key item, item)) ws) in
  StronglySorted (fun a b => String.leb (title_key a) (title_key b) = true) sorted /\
  sorted ≡ₚ ws /\
  forall k, filter (fun item => title_key item = k) sorted
            = filter (fun item => title_key item = k) ws.
Proof.
  cbv zeta. unfold Scanner.sort_by_key.
  set (keyed := map (fun item => (title_key item, item)) ws).
  set (out := fold_left _ keyed []).
  assert (Hperm : out ≡ₚ keyed) by (unfold out; rewrite fold_insert_perm; reflexivity).
  assert (Hkeyed : keyed_by_title keyed) by apply keyed_by_title_map.
  assert (Hout : keyed_by_title out).
  { unfold keyed_by_title. rewrite Hperm. exact Hkeyed. }
  assert (Hsnd : map snd keyed = ws).
  { unfold keyed. rewrite map_map. simpl. apply map_id. }
  split; [|split].
  - apply sorted_items; [exact Hout|]. apply fold_insert_sorted. constructor.
  - rewrite Hperm. rewrite Hsnd. reflexivity.
  - intros k. rewrite (filter_items k out Hout). unfold out.
    rewrite (fold_insert_filter k keyed []) by constructor.
    rewrite app_nil_l, <- (filter_items k keyed Hkeyed), Hsnd. reflexivity.
Qed.

End ScannerFacts.

(** ** Facts about the file operations and the lifecycle controller *)

Module ControllerFacts.
Import Py OS Frame FrameFacts Facts ProgramFacts HandlerFacts ScannerFacts Props.
#[local] Open Scope list_scope.

Lemma state_file_not_volume_file h : Config.STATE_FILE h <> Config.VOLUME_FILE h.
Proof.
  unfold Config.STATE_FILE, Config.VOLUME_FILE. intros H.
  apply append_inj_l in H. discriminate H.
Qed.

Lemma volume_file_not_service_path h : Config.VOLUME_FILE h <> Config.SERVICE_PATH h.
Proof.
  unfold Config.VOLUME_FILE, Config.SERVICE_PATH. intros H.
  apply append_inj_l in H. discriminate H.
Qed.

Lemma service_dir_not_service_path h : Config.SERVICE_DIR h <> Config.SERVICE_PATH h.
Proof.
  unfold Config.SERVICE_DIR, Config.SERVICE_PATH. intros H.
  apply append_inj_l in H. discriminate H.
Qed.

Section Controller.
Variable env : Env.

Lemma bind_bind {A B C} (m : M A) (f : A -> M B) (g : B -> M C) w :
  bind (bind m f) g w = bind m (fun a => bind (f a) g) w.
Proof. unfold bind. destruct (m w) as [[a|e] w1]; reflexivity. Qed.

(** *** What a file operation that returned has done *)

Lemma guard_ok_inv op w u w' :
  guard env op w = (Ok u, w') -> fault env op = None /\ w' = w.
Proof.
  unfold guard. destruct (fault env op); unfold raise, ret; intros H;
    [discriminate | split; congruence].
Qed.

Lemma chmod_ok_inv p mode w u w' :
  chmod env p mode w = (Ok u, w') ->
  files w' = files w /\ dirs w' = dirs w /\ commands w' = commands w.
Proof.
  intros H. pose proof (chmod_same_store env p mode w) as [Hf Hd].
  pose proof (chmod_same_commands env p mode w) as Hc.
  rewrite H in Hf, Hd, Hc. repeat split; assumption.
Qed.

Lemma mkdir_p_ok_inv p w u w' :
  mkdir_p env p w = (Ok u, w') ->
  files w' = files w /\ commands w' = commands w /\ is_dir p w' = true.
Proof.
  unfold mkdir_p. intros H.
  apply bind_ok_inv in H as ([] & w1 & [_ ->]%guard_ok_inv & H).
  destruct (is_dir p w) eqn:Hd.
  - assert (w' = w) as -> by congruence. repeat split. exact Hd.
  - destruct (is_file p w); [discriminate|].
    assert (w' = with_dirs (<[p := []]> (dirs w)) w) as -> by congruence.
    repeat split. unfold is_dir. simpl. rewrite lookup_insert_eq.
    apply bool_decide_eq_true_2. eauto.
Qed.

Lemma open_w_ok_inv p w u w' :
  open_w env p w = (Ok u, w') ->
  w' = with_files (<[p := ""]> (files w)) w.
Proof.
  unfold open_w. intros H.
  apply bind_ok_inv in H as ([] & w1 & [_ ->]%guard_ok_inv & H).
  destruct (is_dir p w); [discriminate|]. congruence.
Qed.

Lemma write_ok_inv p s w u w' :
  write env p s w = (Ok u, w') ->
  w' = with_files (<[p := s]> (files w)) w.
Proof.
  unfold write. intros H.
  apply bind_ok_inv in H as ([] & w1 & [_ ->]%guard_ok_inv & H).
  congruence.
Qed.

Lemma write_text_ok_inv p s w u w' :
  write_text env p s w = (Ok u, w') ->
  w' = with_files (<[p := s]> (files w)) w.
Proof.
  unfold write_text. intros H.
  apply bind_ok_inv in H as ([] & w1 & ->%open_w_ok_inv & ->%write_ok_inv).
  unfold with_files. simpl. rewrite insert_insert_eq. reflexivity.
Qed.

(** A handler that returns [False] cannot be where a [True] came from. *)
Lemma try_except_true_inv (m : M bool) c (h : M unit) w w' :
  try_except m c (fun _ => h ;; ret false) w = (Ok true, w') ->
  m w = (Ok true, w').
Proof.
  unfold try_except. destruct (m w) as [[b|e] w1]; [auto|].
  destruct (c e); [|discriminate].
  unfold bind, ret. destruct (h w1) as [[u|e'] w2]; intros H; discriminate.
Qed.

(** *** Unit generation *)

Lemma create_service_true_inv video_path w w' :
  System.create_service env video_path w = (Ok true, w') ->
  exists template,
    files w !! System.service_template_path = Some template /\
    files w' = <[System.service_path env := unit_text env video_path template]> (files w) /\
    commands w' = commands w.
Proof.
  intros H.
  pose proof (create_service_same_commands env video_path w) as Hc.
  rewrite H in Hc. simpl in Hc. revert H.
  unfold System.create_service, System.get_service_path,
    System.get_service_script_path. cbv zeta. intros H.
  apply bind_ok_inv in H as ([] & w1 & (Hf1 & _ & _)%chmod_ok_inv & H).
  apply bind_ok_inv in H as ([] & w2 & (Hf2 & _ & _)%mkdir_p_ok_inv & H).
  apply try_except_true_inv in H.
  apply bind_ok_inv in H as (template & w3 & [-> Ht]%read_text_inv & H).
  apply bind_ok_inv in H as ([] & w4 & ->%open_w_ok_inv & H).
  apply bind_ok_inv in H as ([] & w5 & ->%write_ok_inv & H).
  apply ret_ok_inv in H as [_ ->].
  exists template. rewrite Hf2, Hf1 in Ht. split; [exact Ht|]. split; [|exact Hc].
  simpl. rewrite insert_insert_eq, Hf2, Hf1. reflexivity.
Qed.

(** The two steps before the [try], from the world they start in. *)
Lemma setup_passes_run w :
  setup_passes env w = true ->
  exists w2,
    (chmod env (System.service_script env) 493 ;;
     mkdir_p env (Config.SERVICE_DIR (home env))) w = (Ok tt, w2) /\
    files w2 = files w /\
    (forall p, is_file p w2 = is_file p w) /\
    (is_dir (System.service_path env) w2 = is_dir (System.service_path env) w).
Proof.
  unfold setup_passes, chmod, mkdir_p, guard, bind.
  destruct (fault env (OpChmod _)); [discriminate|].
  destruct (fault env (OpMkdir _)); [discriminate|].
  unfold ret. intros [Hs Hd]%andb_true_iff. rewrite Hs. unfold emit.
  set (w1 := with_log _ w).
  change (is_dir (Config.SERVICE_DIR (home env)) w1)
    with (is_dir (Config.SERVICE_DIR (home env)) w).
  change (is_file (Config.SERVICE_DIR (home env)) w1)
    with (is_file (Config.SERVICE_DIR (home env)) w).
  destruct (is_dir (Config.SERVICE_DIR (home env)) w).
  - exists w1. auto.
  - simpl in Hd. apply negb_true_iff in Hd. rewrite Hd.
    eexists. split; [reflexivity|]. repeat split.
    unfold is_dir. simpl. rewrite lookup_insert_ne; [reflexivity|].
    apply service_dir_not_service_path.
Qed.

Lemma template_unreadable_run w :
  template_unreadable env w = true ->
  exists e, read_text env System.service_template_path w = (Raise e, w).
Proof.
  unfold template_unreadable, read_text, open_r, guard, bind.
  destruct (fault env (OpOpen _)) as [e|]; [intros _; exists e; reflexivity|].
  unfold ret.
  destruct (is_file System.service_template_path w) eqn:Hf.
  - destruct (fault env (OpRead _)) as [e|]; [intros _; exists e; reflexivity|].
    discriminate.
  - destruct (fault env (OpRead _)); intros _; eexists; reflexivity.
Qed.

(** A checked command that returned [True] ran a process that exited
    with 0. *)
Lemma checked_true_inv c :
  System.checked_result env c = Ok true -> exists out, systemctl env c = Exited 0 out.
Proof.
  unfold System.checked_result. destruct (systemctl env c) as [rc out|e].
  - intros H. exists out. f_equal. apply Z.eqb_eq. congruence.
  - destruct (is_CalledProcessError e); discriminate.
Qed.
End Controller.
End ControllerFacts.

(** ** Printing an integer and reading it back *)

Module IntFacts.
Import Py Props.

Lemma parse_digits_uint d acc nd b :
  (d <> Decimal.Nil \/ b = true) ->
  parse_digits (NilEmpty.string_of_uint d) acc nd b
  = Some (uint_value d acc, nd + Z.of_nat (Decimal.nb_digits d)).
Proof.
  revert acc nd b.
  induction d as [|d IH|d IH|d IH|d IH|d IH|d IH|d IH|d IH|d IH|d IH];
    intros acc nd b Hb;
    [ destruct Hb as [Hb| ->]; [congruence|]; simpl; f_equal; f_equal; lia | .. ];
    cbn [NilEmpty.string_of_uint parse_digits];
    change (Ascii.eqb _ "_") with false; cbv beta iota;
    match goal with
    | |- context [digit_of ?c] =>
        let v := eval vm_compute in (digit_of c) in
        change (digit_of c) with v
    end;
    cbv beta iota; rewrite IH by (right; reflexivity);
    cbn [uint_value Decimal.nb_digits]; rewrite ?Z.add_0_r;
    f_equal; f_equal; lia.
Qed.

Lemma uint_value_pos d a :
  uint_value d (Z.pos a) = Z.pos (Pos.of_uint_acc d a).
Proof.
  revert a. induction d; intros a; simpl; try reflexivity; rewrite <- IHd;
    f_equal; lia.
Qed.

Lemma uint_value_zero d : uint_value d 0 = Z.of_N (Pos.of_uint d).
Proof.
  induction d; simpl; try reflexivity; try exact IHd;
    rewrite <- uint_value_pos; reflexivity.
Qed.

Lemma uint_value_to_uint p : uint_value (Pos.to_uint p) 0 = Z.pos p.
Proof. rewrite uint_value_zero, DecimalPos.Unsigned.of_to. reflexivity. Qed.

Lemma length_string_of_uint d :
  String.length (NilEmpty.string_of_uint d) = Decimal.nb_digits d.
Proof. induction d; simpl; congruence. Qed.

Lemma to_uint_not_nil p : Pos.to_uint p <> Decimal.Nil.
Proof.
  intros H. pose proof (DecimalPos.Unsigned.of_to p) as Hp. rewrite H in Hp.
  discriminate.
Qed.

(** A string of digits has no white space to strip. *)
Lemma rstrip_digits d :
  rstrip (NilEmpty.string_of_uint d) = NilEmpty.string_of_uint d.
Proof.
  induction d; simpl; try reflexivity; rewrite IHd;
    destruct (NilEmpty.string_of_uint d); reflexivity.
Qed.

Lemma strip_digits d :
  strip (NilEmpty.string_of_uint d) = NilEmpty.string_of_uint d.
Proof.
  unfold strip. destruct d; try apply rstrip_digits;
    change (lstrip (NilEmpty.string_of_uint ?x)) with (NilEmpty.string_of_uint x);
    apply rstrip_digits.
Qed.

Lemma parse_unsigned_to_uint p :
  Z.of_nat (Decimal.nb_digits (Pos.to_uint p)) <= int_max_str_digits ->
  parse_unsigned (NilEmpty.string_of_uint (Pos.to_uint p)) = Some (Z.pos p).
Proof.
  intros Hlen. unfold parse_unsigned.
  rewrite parse_digits_uint by (left; apply to_uint_not_nil).
  rewrite uint_value_to_uint, Z.add_0_l.
  destruct (Z.leb_spec (Z.of_nat (Decimal.nb_digits (Pos.to_uint p))) int_max_str_digits);
    [reflexivity | lia].
Qed.

(** The decimal text of an integer reads back as that integer, as long as
    it has no more digits than [int] accepts. *)
Lemma int_str v :
  Z.of_nat (String.length (str (Z.abs v))) <= int_max_str_digits ->
  int (str v) = Some v /\ strip (str v) = str v.
Proof.
  destruct v as [|p|p]; [intros _; split; reflexivity | |];
    unfold str, Z.abs, Z.to_int, NilZero.string_of_int, NilZero.string_of_uint;
    pose proof (to_uint_not_nil p) as Hnil;
    destruct (Pos.to_uint p) eqn:Hd; try congruence; rewrite <- Hd;
    rewrite length_string_of_uint; intros Hlen;
    pose proof (parse_unsigned_to_uint p Hlen) as Hparse.
  all: try (split; [|apply strip_digits]; unfold int; rewrite strip_digits;
            rewrite Hd in *; cbn [NilEmpty.string_of_uint] in *; exact Hparse).
  all: assert (Hs : strip (String "-" (NilEmpty.string_of_uint (Pos.to_uint p)))
                    = String "-" (NilEmpty.string_of_uint (Pos.to_uint p)))
         by (unfold strip; cbn [lstrip]; change (is_space "-") with false; cbv iota;
             cbn [rstrip]; rewrite rstrip_digits;
             destruct (NilEmpty.string_of_uint (Pos.to_uint p)); reflexivity).
  all: split; [|exact Hs]; unfold int; rewrite Hs, Hparse; reflexivity.
Qed.

End IntFacts.

(** ** Facts about the state files and the handlers *)

Module StateFacts.
Import Py OS Frame FrameFacts Facts ProgramFacts HandlerFacts ScannerFacts.
Import ControllerFacts Props.
#[local] Open Scope list_scope.

Section State.
Variable env : Env.

Lemma unlink_keeps q p : q <> p -> respects (keeps q) (unlink env p).
Proof.
  intros Hne w. unfold unlink, guard, bind.
  destruct (fault env (OpUnlink p)); simpl; [reflexivity|].
  destruct (files w !! p); simpl; [|reflexivity].
  unfold keeps. simpl. apply lookup_delete_ne. congruence.
Qed.

(** *** Each operation writes its own file only *)

Lemma save_volume_keeps q v :
  q <> System.VOLUME_FILE env -> respects (keeps q) (System.save_volume env v).
Proof.
  intros Hq. unfold System.save_volume, write_text. frame_keeps q.
Qed.

Lemma save_current_wallpaper_keeps q path :
  q <> App.STATE_FILE env -> respects (keeps q) (App.save_current_wallpaper env path).
Proof.
  intros Hq. unfold App.save_current_wallpaper, write_text. frame_keeps q.
Qed.

Lemma clear_current_wallpaper_keeps q :
  q <> App.STATE_FILE env -> respects (keeps q) (App.clear_current_wallpaper env).
Proof.
  intros Hq. pose proof (unlink_keeps q (App.STATE_FILE env) Hq).
  unfold App.clear_current_wallpaper. frame_keeps q.
Qed.

Lemma apply_wallpaper_keeps q video_path :
  q <> System.service_path env ->
  respects (keeps q) (System.apply_wallpaper env video_path).
Proof.
  intros Hq.
  pose proof (create_service_keeps env q video_path Hq) as Hc.
  pose proof (stop_service_same_store env). pose proof (reload_daemon_same_store env).
  pose proof (enable_service_same_store env). pose proof (start_service_same_store env).
  unfold System.apply_wallpaper. frame_keeps q.
Qed.

(** *** Reading *)

(** What [read_text] raises is what the file system refused with, or an
    [OSError] for a file that is not there. *)
Lemma read_text_raises p w e w' :
  read_text env p w = (Raise e, w') ->
  fault env (OpOpen p) = Some e \/ fault env (OpRead p) = Some e \/ is_OSError e = true.
Proof.
  unfold read_text, open_r, guard, bind.
  destruct (fault env (OpOpen p)) as [e1|]; simpl; [left; congruence|].
  destruct (is_file p w) eqn:Hf; simpl.
  - destruct (fault env (OpRead p)) as [e2|]; simpl; [right; left; congruence|].
    destruct (files w !! p); intros H; [discriminate|].
    right; right. injection H as <- _. reflexivity.
  - intros H. right; right. injection H as <- _. destruct (is_dir p w); reflexivity.
Qed.

(** What [get_current_wallpaper] answers when the state file can be read. *)
Lemma get_current_wallpaper_reads w s :
  files w !! App.STATE_FILE env = Some s ->
  fault env (OpOpen (App.STATE_FILE env)) = None ->
  fault env (OpRead (App.STATE_FILE env)) = None ->
  fst (App.get_current_wallpaper env w)
  = Ok (if System.active (System.reported_status env)
           && negb (String.eqb (strip s) "")
           && (is_file (strip s) w || is_dir (strip s) w)
        then Some (strip s) else None).
Proof.
  intros Hs Ho Hr.
  pose proof (get_service_status_result env w) as Hst.
  pose proof (get_service_status_same_store env w) as Hsame.
  unfold App.get_current_wallpaper, bind at 1.
  destruct (System.get_service_status env w) as [[st|e] w1]; simpl in Hst, Hsame;
    [|discriminate].
  injection Hst as ->. destruct Hsame as [Hf Hd].
  destruct (System.active (System.reported_status env)); cbn [negb andb];
    [|reflexivity].
  assert (Hs1 : files w1 !! App.STATE_FILE env = Some s) by (rewrite Hf; exact Hs).
  unfold bind at 1, exists_ at 1, is_file at 1. rewrite Hs1.
  rewrite bool_decide_eq_true_2 by eauto. cbn [orb].
  unfold bind at 1. rewrite (read_text_ok env _ w1 s Hs1 Ho Hr).
  unfold bind, exists_, is_file, is_dir. rewrite Hf, Hd.
  destruct (negb (String.eqb (strip s) "") && _); reflexivity.
Qed.

(** *** Filling the list *)

Lemma add_wallpapers_log running ws w :
  App.add_wallpapers running ws w
  = (Ok tt, with_log (log w ++ map (sidebar_entry running) ws) w).
Proof.
  revert w. induction ws as [|item ws IH]; intros w; simpl.
  - rewrite app_nil_r. destruct w; reflexivity.
  - unfold bind, emit. rewrite IH. simpl. rewrite <- app_assoc. reflexivity.
Qed.

(** *** Saving the state *)

Lemma save_current_wallpaper_ok_inv path w u w1 :
  App.save_current_wallpaper env path w = (Ok u, w1) ->
  files w1 = <[App.STATE_FILE env := path]> (files w) /\
  (forall p, is_dir p w = true -> is_dir p w1 = true).
Proof.
  unfold App.save_current_wallpaper. intros H.
  apply bind_ok_inv in H as ([] & w0 & Hm & H).
  apply write_text_ok_inv in H as ->.
  assert (Hd : forall p, is_dir p w = true -> is_dir p w0 = true).
  { revert Hm. unfold mkdir_p. intros Hm.
    apply bind_ok_inv in Hm as ([] & w' & [_ ->]%guard_ok_inv & Hm).
    destruct (is_dir (Config.STATE_DIR (home env)) w) eqn:Hsd.
    - assert (w0 = w) as -> by congruence. auto.
    - destruct (is_file (Config.STATE_DIR (home env)) w); [discriminate|].
      assert (w0 = with_dirs (<[Config.STATE_DIR (home env) := []]> (dirs w)) w)
        as -> by congruence.
      intros p. unfold is_dir. simpl. rewrite !bool_decide_eq_true.
      intros [l Hl]. destruct (decide (Config.STATE_DIR (home env) = p)) as [->|Hne].
      + rewrite lookup_insert_eq. eauto.
      + rewrite lookup_insert_ne by exact Hne. eauto. }
  pose proof (mkdir_p_ok_inv env _ _ _ _ Hm) as (Hf & _ & _).
  split; [simpl; rewrite Hf; reflexivity | exact Hd].
Qed.

(** *** Clearing the state *)

Lemma unlink_ok_inv p w u w1 :
  unlink env p w = (Ok u, w1) ->
  is_Some (files w !! p) /\ w1 = with_files (delete p (files w)) w.
Proof.
  unfold unlink. intros H.
  apply bind_ok_inv in H as ([] & w0 & [_ ->]%guard_ok_inv & H).
  destruct (files w !! p); [|discriminate]. split; [eauto | congruence].
Qed.

Lemma clear_absent w :
  files w !! App.STATE_FILE env = None ->
  is_dir (App.STATE_FILE env) w = false ->
  App.clear_current_wallpaper env w = (Ok tt, w).
Proof.
  intros Hf Hd. unfold App.clear_current_wallpaper, bind, exists_, is_file.
  rewrite Hf, Hd. rewrite bool_decide_eq_false_2 by (intros [? ?]; discriminate).
  reflexivity.
Qed.

Lemma clear_ok_inv w u w1 :
  App.clear_current_wallpaper env w = (Ok u, w1) ->
  w1 = with_files (delete (App.STATE_FILE env) (files w)) w.
Proof.
  unfold App.clear_current_wallpaper. intros H.
  apply bind_ok_inv in H as (b & w0 & Hb & H).
  unfold exists_ in Hb.
  assert (w0 = w) as -> by congruence.
  assert (b = is_file (App.STATE_FILE env) w || is_dir (App.STATE_FILE env) w)
    as -> by congruence.
  destruct (is_file (App.STATE_FILE env) w || is_dir (App.STATE_FILE env) w) eqn:Hex.
  - apply unlink_ok_inv in H as [_ ->]. reflexivity.
  - apply ret_ok_inv in H as [_ ->].
    apply orb_false_iff in Hex as [Hfile _]. unfold is_file in Hfile.
    apply bool_decide_eq_false in Hfile.
    assert (Hnone : files w !! App.STATE_FILE env = None).
    { destruct (files w !! App.STATE_FILE env) eqn:E; [|reflexivity].
      exfalso. apply Hfile. eauto. }
    rewrite (delete_id _ _ Hnone). destruct w; reflexivity.
Qed.

(** *** The status query *)

Lemma get_service_status_commands w :
  commands (snd (System.get_service_status env w))
  = commands w ++ match systemctl env IsActive with
                  | Exited _ _ => [IsActive; IsEnabled]
                  | LaunchError _ => [IsActive]
                  end.
Proof.
  unfold System.get_service_status, subprocess_run, attempt, bind, emit, raise, ret.
  cbv zeta. simpl.
  destruct (systemctl env IsActive) as [rc out|e]; simpl.
  - destruct (systemctl env IsEnabled) as [rc' out'|e']; simpl;
      unfold commands; simpl; rewrite !omap_app, <- app_assoc; reflexivity.
  - unfold commands. simpl. rewrite omap_app. reflexivity.
Qed.
End State.
End StateFacts.

(** ** Further properties of the program *)

Module Properties.
Import Py OS Frame FrameFacts Facts ProgramFacts HandlerFacts.
Import SortFacts ScannerFacts ControllerFacts IntFacts StateFacts Props Samples.
#[local] Open Scope list_scope.

(** Closes a goal about concrete data by running the definitions. *)
Ltac evaluate :=
  first [ match goal with |- ?a = ?b => exact (@eq_refl _ a <: a = b) end
        | vm_compute; congruence ].

(** *** The scanner *)

(** X1: the content root is the first candidate path that is a directory,
    in the order of [WORKSHOP_PATHS], and there is none exactly when no
    candidate is a directory; looking for it changes nothing. *)
Theorem get_workshop_path_first_hit env w :
  Scanner.get_workshop_path env w
  = (Ok (find (fun p => is_dir p w) (Config.WORKSHOP_PATHS (home env))), w).
Proof. apply get_workshop_path_first_hit_aux. Qed.

(** X2: without a content root [scan] returns the empty catalogue: it
    raises nothing, lists no directory and leaves the world as it is,
    whatever the file system would refuse. *)
Theorem scan_without_root_is_empty env flt w :
  Forall (fun p => is_dir p w = false) (Config.WORKSHOP_PATHS (home env)) ->
  Scanner.scan env flt w = (Ok [], w).
Proof.
  intros Hnone. unfold Scanner.scan, bind, Scanner.get_workshop_path.
  rewrite first_dir_find.
  replace (find (fun p => is_dir p w) (Scanner.workshop_paths env)) with (@None string);
    [reflexivity|].
  symmetry. unfold Scanner.workshop_paths.
  induction Hnone as [|p ps Hp _ IH]; simpl; [reflexivity|]. rewrite Hp. exact IH.
Qed.

(** At home under [/home/u] with nothing installed, no candidate is a directory. *)
Lemma scan_without_root_is_empty_witness :
  Scanner.scan env_ok true installed = (Ok [], installed).
Proof.
  apply (scan_without_root_is_empty env_ok true installed).
  repeat constructor.
Defined.

(** X3: the preview of a folder is the first entry of its listing whose
    name is exactly one of the accepted preview names, joined to the
    folder; a folder without such an entry has no preview, which is not an
    error. *)
Theorem find_preview_first_match env folder listing w :
  dirs w !! folder = Some listing ->
  fault env (OpListdir folder) = None ->
  Scanner.find_preview env folder w
  = (Ok (match find (fun f => Scanner.mem f Config.PREVIEW_EXTENSIONS) listing with
         | Some f => Some (join folder [f])
         | None => None
         end), w).
Proof.
  intros Hd Hf. unfold Scanner.find_preview, listdir, bind, guard.
  rewrite Hf. simpl. rewrite Hd. reflexivity.
Qed.

Lemma find_preview_first_match_witness :
  Scanner.find_preview env_ok "/opt/pivio" installed = (Ok None, installed) /\
  Scanner.find_preview (env_metadata ocean_complete) "/gallery" gallery
  = (Ok (Some "/gallery/preview.png"), gallery).
Proof.
  split.
  - apply (find_preview_first_match env_ok "/opt/pivio" ["pivio-autostart.sh"]);
      reflexivity.
  - apply (find_preview_first_match (env_metadata ocean_complete) "/gallery"
             ["notes.txt"; "Preview.jpg"; "preview.png"; "preview.jpg"]);
      reflexivity.
Defined.

(** X4: of what [json.load] raises on a [project.json] that could be
    opened, a [JSONDecodeError] and an [OSError] are turned into "no
    metadata"; any other exception leaves [parse_project_json]. *)
Theorem parse_project_json_errors env folder w :
  is_file (join folder ["project.json"]) w = true ->
  fault env (OpOpen (join folder ["project.json"])) = None ->
  Scanner.parse_project_json env folder w
  = (match json_load env (join folder ["project.json"]) with
     | Ok j => Ok j
     | Raise e => if is_JSONDecodeError e || is_OSError e then Ok JNull else Raise e
     end, w).
Proof.
  intros Hfile Hopen. unfold Scanner.parse_project_json. cbv zeta.
  unfold bind at 1, exists_ at 1. rewrite Hfile. cbn [orb].
  unfold open_r, guard, bind. rewrite Hopen. unfold ret. rewrite Hfile.
  unfold try_except, lift.
  destruct (json_load env _) as [j|e]; [reflexivity|].
  destruct (is_JSONDecodeError e || is_OSError e); reflexivity.
Qed.

Lemma parse_project_json_errors_witness :
  Scanner.parse_project_json (sample_env all_ok no_fault (fun _ => Raise JSONDecodeError))
    "/gallery" gallery = (Ok JNull, gallery) /\
  Scanner.parse_project_json (sample_env all_ok no_fault (fun _ => Raise UnicodeDecodeError))
    "/gallery" gallery = (Raise UnicodeDecodeError, gallery).
Proof.
  split.
  - apply (parse_project_json_errors
             (sample_env all_ok no_fault (fun _ => Raise JSONDecodeError)) "/gallery" gallery);
      reflexivity.
  - apply (parse_project_json_errors
             (sample_env all_ok no_fault (fun _ => Raise UnicodeDecodeError)) "/gallery" gallery);
      reflexivity.
Defined.

(** X5: a folder without usable metadata -- no [project.json], one that
    does not decode, or one that decodes to an empty value -- is passed
    over without an exception: the loop of [scan] gives the same with the
    folder in the listing as without it. *)
Theorem scan_loop_skips_unusable env flt root before folder after acc w :
  metadata_unusable env root folder w = true ->
  Scanner.scan_loop env flt root (before ++ folder :: after) acc w
  = Scanner.scan_loop env flt root (before ++ after) acc w.
Proof.
  intros H. apply scan_loop_skip, scan_folder_unusable, H.
Qed.

Lemma scan_loop_skips_unusable_witness :
  Scanner.scan_loop (env_metadata JNull) true workshop (["111"] ++ "333" :: ["222"]) [] library
  = Scanner.scan_loop (env_metadata JNull) true workshop (["111"] ++ ["222"]) [] library /\
  Scanner.scan_loop (env_metadata JNull) true workshop ([] ++ "111" :: ["222"]) [] library
  = Scanner.scan_loop (env_metadata JNull) true workshop ([] ++ ["222"]) [] library.
Proof.
  split.
  - apply (scan_loop_skips_unusable (env_metadata JNull) true workshop ["111"] "333" ["222"]).
    evaluate.
  - apply (scan_loop_skips_unusable (env_metadata JNull) true workshop [] "111" ["222"]).
    evaluate.
Defined.

(** X6: every item of a videos-only scan comes from a folder of the
    content root, has a title that is a string, a type that is a string
    other than [scene] and [web] in any letter case, a media file
    [root/folder/file] that is a regular file, and an accepted video
    extension on [file] in any letter case. *)
Theorem scan_items_are_videos env w ws w' :
  Scanner.scan env true w = (Ok ws, w') ->
  ws = [] \/
  exists root folders,
    find (fun p => is_dir p w) (Config.WORKSHOP_PATHS (home env)) = Some root /\
    dirs w !! root = Some folders /\
    Forall (fun item => video_item root folders w item /\ titled item) ws.
Proof.
  intros H. apply scan_ok_inv in H as [_ [[_ ->]|H]]; [left; reflexivity|].
  destruct H as (root & folders & collected & Hroot & Hdir & Hloop & Htitled & ->).
  right. exists root, folders. repeat split; [assumption..|].
  apply scan_loop_items in Hloop as [_ (found & -> & Hfound)]. simpl in *.
  destruct (sort_by_key_spec found) as (_ & Hperm & _).
  rewrite Hperm. apply Forall_forall. intros item Hin.
  rewrite Forall_forall in Hfound, Htitled.
  split; [apply Hfound | apply Htitled]; exact Hin.
Qed.

Lemma scan_items_are_videos_witness :
  Scanner.scan (env_metadata ocean_complete) true library
  = (Ok (catalogue (env_metadata ocean_complete) library), library) /\
  (catalogue (env_metadata ocean_complete) library = [] \/
   exists root folders,
     find (fun p => is_dir p library)
       (Config.WORKSHOP_PATHS (home (env_metadata ocean_complete))) = Some root /\
     dirs library !! root = Some folders /\
     Forall (fun item => video_item root folders library item /\ titled item)
       (catalogue (env_metadata ocean_complete) library)).
Proof.
  assert (H : Scanner.scan (env_metadata ocean_complete) true library
              = (Ok (catalogue (env_metadata ocean_complete) library), library))
    by (apply scan_returned; evaluate).
  split; [exact H|].
  exact (scan_items_are_videos (env_metadata ocean_complete) library _ library H).
Defined.



(** *** The lifecycle controller *)

(** X8: each of the five checked commands of the controller (reload,
    enable, disable, start, stop) issues exactly its [systemctl] sub-command
    and changes no file or directory; it returns [True] for exit code 0,
    [False] for any other exit code, and raises only when the process could
    not be run at all. *)
Theorem controller_command_result env c f w :
  controller_command c = Some f ->
  (forall rc out, systemctl env c = Exited rc out -> fst (f env w) = Ok (rc =? 0)) /\
  (forall e, systemctl env c = LaunchError e -> is_CalledProcessError e = false ->
             fst (f env w) = Raise e) /\
  commands (snd (f env w)) = commands w ++ [c] /\
  same_store w (snd (f env w)).
Proof.
  intros Hf.
  assert (Hspec : fst (f env w) = System.checked_result env c /\
                  commands (snd (f env w)) = commands w ++ [c] /\
                  same_store w (snd (f env w))).
  { destruct c; simpl in Hf; try discriminate; injection Hf as <-.
    - split; [apply reload_daemon_spec|]. split;
        [apply reload_daemon_spec | apply reload_daemon_same_store].
    - split; [apply enable_service_spec|]. split;
        [apply enable_service_spec | apply enable_service_same_store].
    - split; [apply disable_service_spec|]. split;
        [apply disable_service_spec | apply disable_service_same_store].
    - split; [apply start_service_spec|]. split;
        [apply start_service_spec | apply start_service_same_store].
    - split; [apply stop_service_spec|]. split;
        [apply stop_service_spec | apply stop_service_same_store]. }
  destruct Hspec as (Hres & Hcmd & Hstore). unfold System.checked_result in Hres.
  repeat split; try assumption; try apply Hstore.
  - intros rc out Hc. rewrite Hres, Hc. reflexivity.
  - intros e Hc He. rewrite Hres, Hc, He. reflexivity.
Qed.

Lemma controller_command_result_witness :
  fst (System.stop_service env_nothing_running playing) = Ok false /\
  fst (System.start_service env_no_systemctl playing) = Raise FileNotFoundError /\
  commands (snd (System.disable_service env_ok playing)) = [Disable].
Proof.
  split; [|split].
  - apply (proj1 (controller_command_result env_nothing_running Stop
                    System.stop_service playing eq_refl) 5 ""). reflexivity.
  - apply (proj1 (proj2 (controller_command_result env_no_systemctl Start
                           System.start_service playing eq_refl)) FileNotFoundError);
      reflexivity.
  - apply (proj1 (proj2 (proj2 (controller_command_result env_ok Disable
                                  System.disable_service playing eq_refl)))).
Defined.

(** X9: when [create_service] returns [True], the template was there, and
    the unit file now holds the text of the template with every
    [{{VIDEO_PATH}}] replaced by the video path and then every
    [{{SERVICE_SCRIPT_PATH}}] by the path of the launcher script -- in
    place of whatever it held before; no other file is changed and no
    command is run. *)
Theorem create_service_writes_unit env video_path w w' :
  System.create_service env video_path w = (Ok true, w') ->
  exists template,
    files w !! System.service_template_path = Some template /\
    files w' = <[System.service_path env := unit_text env video_path template]> (files w) /\
    commands w' = commands w.
Proof. apply create_service_true_inv. Qed.

Lemma create_service_writes_unit_witness :
  exists template,
    files applied_before !! System.service_template_path = Some template /\
    files (snd (System.create_service env_ok video applied_before))
    = <[System.service_path env_ok := unit_text env_ok video template]>
        (files applied_before) /\
    commands (snd (System.create_service env_ok video applied_before))
    = commands applied_before.
Proof.
  apply (create_service_writes_unit env_ok video applied_before).
  apply returned. evaluate.
Defined.

(** X10: when [os.chmod] and [mkdir] go through and the template cannot be
    read, [create_service] returns [False] and leaves every file as it
    was, the unit file of an earlier apply included. *)
Theorem create_service_unreadable_template env video_path w :
  setup_passes env w = true ->
  template_unreadable env w = true ->
  fst (System.create_service env video_path w) = Ok false /\
  files (snd (System.create_service env video_path w)) = files w.
Proof.
  intros Hsetup Htpl.
  destruct (setup_passes_run env w Hsetup) as (w2 & Hrun & Hfiles & Hisfile & _).
  assert (Htpl2 : template_unreadable env w2 = true).
  { revert Htpl. unfold template_unreadable. rewrite Hisfile. auto. }
  destruct (template_unreadable_run env w2 Htpl2) as (e & Hread).
  assert (Hc : System.create_service env video_path w
               = (Ok false, with_log (log w2 ++ [EvPrint]) w2)).
  { unfold System.create_service, System.get_service_script_path. cbv zeta.
    rewrite <- (bind_bind (chmod env (System.service_script env) 493)
                  (fun _ => mkdir_p env (Config.SERVICE_DIR (home env)))).
    unfold bind at 1. rewrite Hrun.
    unfold try_except, bind at 1. rewrite Hread. reflexivity. }
  rewrite Hc. split; [reflexivity | exact Hfiles].
Qed.

Lemma create_service_unreadable_template_witness :
  fst (System.create_service env_ok video without_template) = Ok false /\
  files (snd (System.create_service env_ok video without_template))
  = files without_template.
Proof.
  apply (create_service_unreadable_template env_ok video without_template);
    evaluate.
Defined.

(** X11: when [apply_wallpaper] returns [True], the enable and the start
    command both exited with 0, the commands issued were stop, reload,
    enable and start in this order, and the unit file holds the template
    filled in for this video; no other file is changed. *)
Theorem apply_wallpaper_success env video_path w w' :
  System.apply_wallpaper env video_path w = (Ok true, w') ->
  (exists out, systemctl env Enable = Exited 0 out) /\
  (exists out, systemctl env Start = Exited 0 out) /\
  commands w' = commands w ++ [Stop; DaemonReload; Enable; Start] /\
  exists template,
    files w !! System.service_template_path = Some template /\
    files w' = <[System.service_path env := unit_text env video_path template]> (files w).
Proof.
  unfold System.apply_wallpaper. intros H.
  apply bind_ok_inv in H as (b0 & w0 & H0 & H).
  apply bind_ok_inv in H as (b1 & w1 & H1 & H).
  destruct b1; cbn [negb] in H; [|apply ret_ok_inv in H as [? _]; discriminate].
  apply bind_ok_inv in H as (b2 & w2 & H2 & H).
  apply bind_ok_inv in H as (b3 & w3 & H3 & H).
  destruct b3; cbn [negb] in H; [|apply ret_ok_inv in H as [? _]; discriminate].
  apply bind_ok_inv in H as (b4 & w4 & H4 & H).
  destruct b4; cbn [negb] in H; [|apply ret_ok_inv in H as [? _]; discriminate].
  apply ret_ok_inv in H as [_ ->].
  pose proof (stop_service_spec env w) as [_ C0].
  pose proof (stop_service_same_store env w) as [F0 _].
  pose proof (reload_daemon_spec env w1) as [_ C2].
  pose proof (reload_daemon_same_store env w1) as [F2 _].
  pose proof (enable_service_spec env w2) as [R3 C3].
  pose proof (enable_service_same_store env w2) as [F3 _].
  pose proof (start_service_spec env w3) as [R4 C4].
  pose proof (start_service_same_store env w3) as [F4 _].
  rewrite H0 in C0, F0. rewrite H2 in C2, F2. rewrite H3 in R3, C3, F3.
  rewrite H4 in R4, C4, F4. simpl in *.
  apply create_service_true_inv in H1 as (template & Ht & F1 & C1).
  split; [apply checked_true_inv; congruence|].
  split; [apply checked_true_inv; congruence|].
  split.
  - rewrite C4, C3, C2, C1, C0, <- !app_assoc. reflexivity.
  - exists template. rewrite F0 in Ht, F1. split; [exact Ht|].
    rewrite F4, F3, F2. exact F1.
Qed.

Lemma apply_wallpaper_success_witness :
  (exists out, systemctl env_ok Enable = Exited 0 out) /\
  (exists out, systemctl env_ok Start = Exited 0 out) /\
  commands (snd (System.apply_wallpaper env_ok video installed))
  = commands installed ++ [Stop; DaemonReload; Enable; Start] /\
  exists template,
    files installed !! System.service_template_path = Some template /\
    files (snd (System.apply_wallpaper env_ok video installed))
    = <[System.service_path env_ok := unit_text env_ok video template]> (files installed).
Proof.
  apply (apply_wallpaper_success env_ok video installed).
  apply returned. evaluate.
Defined.

(** X12: whatever happens -- a step returns [False], a command cannot be
    run, the file system refuses something -- the commands that
    [apply_wallpaper] has issued when it ends are the first one, two, three
    or four of stop, reload, enable, start: stop is always issued, never
    disable, and never a command out of order. *)
Theorem apply_wallpaper_commands env video_path w :
  exists n, (1 <= n <= 4)%nat /\
    commands (snd (System.apply_wallpaper env video_path w))
    = commands w ++ take n [Stop; DaemonReload; Enable; Start].
Proof.
  unfold System.apply_wallpaper, bind.
  pose proof (stop_service_spec env w) as [_ C0].
  destruct (System.stop_service env w) as [[b0|e0] w0]; simpl in C0;
    [|exists 1%nat; split; [lia | exact C0]].
  pose proof (create_service_same_commands env video_path w0) as C1.
  unfold same_commands in C1.
  destruct (System.create_service env video_path w0) as [[b1|e1] w1]; simpl in C1;
    [|exists 1%nat; split; [lia | simpl; congruence]].
  destruct b1; simpl; [|exists 1%nat; split; [lia | simpl; congruence]].
  pose proof (reload_daemon_spec env w1) as [_ C2].
  destruct (System.reload_daemon env w1) as [[b2|e2] w2]; simpl in C2;
    [|exists 2%nat; split; [lia|]; simpl; rewrite C2, C1, C0, <- app_assoc; reflexivity].
  pose proof (enable_service_spec env w2) as [_ C3].
  assert (H3 : commands (snd (System.enable_service env w2))
               = commands w ++ take 3 [Stop; DaemonReload; Enable; Start]).
  { rewrite C3, C2, C1, C0, <- !app_assoc. reflexivity. }
  destruct (System.enable_service env w2) as [[b3|e3] w3]; simpl in H3, C3;
    [|exists 3%nat; split; [lia | exact H3]].
  destruct b3; simpl; [|exists 3%nat; split; [lia | exact H3]].
  pose proof (start_service_spec env w3) as [_ C4].
  assert (H4 : commands (snd (System.start_service env w3))
               = commands w ++ take 4 [Stop; DaemonReload; Enable; Start]).
  { rewrite C4, H3, <- !app_assoc. reflexivity. }
  exists 4%nat. split; [lia|].
  destruct (System.start_service env w3) as [[b4|e4] w4]; simpl in H4;
    [destruct b4|]; exact H4.
Qed.

(** X22: once [os.chmod] and [mkdir] have gone through, [create_service]
    returns a boolean whatever else the file system refuses: the template,
    the opening of the unit file, the writing. *)
Theorem create_service_returns_after_setup_passes env video_path w :
  setup_passes env w = true ->
  exists b, fst (System.create_service env video_path w) = Ok b.
Proof.
  intros Hsetup.
  destruct (setup_passes_run env w Hsetup) as (w2 & Hrun & _).
  apply bind_ok_inv in Hrun as ([] & w1 & Hchmod & Hmkdir).
  exact (create_service_returns_after_setup env video_path w w1 w2 Hchmod Hmkdir).
Qed.

Lemma create_service_returns_after_setup_passes_witness :
  exists b, fst (System.create_service env_config_read_only video installed) = Ok b.
Proof.
  apply (create_service_returns_after_setup_passes env_config_read_only video installed).
  evaluate.
Defined.



(** *** The state files *)

(** X13: the three files of the program are different paths, and each
    operation changes the text of its own file only: [save_volume] of the
    volume file, [save_current_wallpaper] and [clear_current_wallpaper] of
    the state file, [apply_wallpaper] of the unit file -- also when they
    fail. *)
Theorem operations_write_their_own_file env w q :
  (q <> System.VOLUME_FILE env ->
   forall v, files (snd (System.save_volume env v w)) !! q = files w !! q) /\
  (q <> App.STATE_FILE env ->
   (forall path, files (snd (App.save_current_wallpaper env path w)) !! q = files w !! q) /\
   files (snd (App.clear_current_wallpaper env w)) !! q = files w !! q) /\
  (q <> System.service_path env ->
   forall video_path,
     files (snd (System.apply_wallpaper env video_path w)) !! q = files w !! q) /\
  App.STATE_FILE env <> System.VOLUME_FILE env /\
  App.STATE_FILE env <> System.service_path env /\
  System.VOLUME_FILE env <> System.service_path env.
Proof.
  split; [|split; [|split; [|split; [|split]]]].
  - intros Hq v. apply (save_volume_keeps env q v Hq).
  - intros Hq. split.
    + intros path. apply (save_current_wallpaper_keeps env q path Hq).
    + apply (clear_current_wallpaper_keeps env q Hq).
  - intros Hq video_path. apply (apply_wallpaper_keeps env q video_path Hq).
  - apply state_file_not_volume_file.
  - apply state_file_not_service_path.
  - apply volume_file_not_service_path.
Qed.

Lemma operations_write_their_own_file_witness :
  files (snd (System.save_volume env_ok 80 playing)) !! App.STATE_FILE env_ok
  = Some "/videos/forest.mp4" /\
  files (snd (App.clear_current_wallpaper env_ok (with_volume_text "80")))
    !! System.VOLUME_FILE env_ok
  = Some "80".
Proof.
  split.
  - destruct (operations_write_their_own_file env_ok playing (App.STATE_FILE env_ok))
      as (Hvol & _ & _ & Hne & _).
    rewrite (Hvol Hne 80). reflexivity.
  - destruct (operations_write_their_own_file env_ok (with_volume_text "80")
                (System.VOLUME_FILE env_ok)) as (_ & Hstate & _ & Hne & _).
    rewrite (proj2 (Hstate (fun H => Hne (eq_sym H)))). reflexivity.
Defined.

(** X14: as long as the file system refuses with nothing but an [OSError]
    or a [ValueError] (a text that cannot be decoded), [get_volume] always
    returns a number and leaves the world as it is. *)
Theorem get_volume_never_raises env w :
  (forall e, fault env (OpOpen (System.VOLUME_FILE env)) = Some e ->
             is_ValueError e || is_OSError e = true) ->
  (forall e, fault env (OpRead (System.VOLUME_FILE env)) = Some e ->
             is_ValueError e || is_OSError e = true) ->
  exists n, System.get_volume env w = (Ok n, w).
Proof.
  intros Hopen Hread. unfold System.get_volume, bind at 1, try_except, bind at 1.
  unfold exists_ at 1.
  destruct (is_file (System.VOLUME_FILE env) w || is_dir (System.VOLUME_FILE env) w);
    cbv beta iota; [|eexists; reflexivity].
  unfold bind at 1.
  pose proof (read_text_still env (System.VOLUME_FILE env) w) as Hw.
  destruct (read_text env (System.VOLUME_FILE env) w) as [[s|e] w1] eqn:Hr;
    simpl in Hw; subst w1.
  - destruct (int (strip s)); eexists; reflexivity.
  - assert (Hc : is_ValueError e || is_OSError e = true).
    { apply read_text_raises in Hr as [H|[H|H]]; auto.
      rewrite H. apply orb_true_r. }
    rewrite Hc. eexists. reflexivity.
Qed.

Lemma get_volume_never_raises_witness :
  exists n, System.get_volume env_volume_locked (with_volume_text "80")
            = (Ok n, with_volume_text "80").
Proof.
  apply (get_volume_never_raises env_volume_locked (with_volume_text "80")).
  - intros e He. vm_compute in He. injection He as <-. reflexivity.
  - intros e He. vm_compute in He. discriminate.
Defined.

(** X15: the volume round trip holds for every integer, negative ones
    included, whose decimal form has no more digits than [int] accepts:
    after a [save_volume v] that returned [True], [get_volume] on a
    readable volume file returns [v]. *)
Theorem volume_round_trip_any env v w w1 :
  Z.of_nat (String.length (str (Z.abs v))) <= int_max_str_digits ->
  System.save_volume env v w = (Ok true, w1) ->
  fault env (OpOpen (System.VOLUME_FILE env)) = None ->
  fault env (OpRead (System.VOLUME_FILE env)) = None ->
  System.get_volume env w1 = (Ok v, w1).
Proof.
  intros Hlen Hsave Ho Hr.
  rewrite (get_volume_reads env w1 (str v) (save_volume_written env v w w1 Hsave) Ho Hr).
  destruct (int_str v Hlen) as [Hint Hstrip]. rewrite Hstrip, Hint. reflexivity.
Qed.

Lemma volume_round_trip_any_witness :
  System.get_volume env_ok (snd (System.save_volume env_ok 37 installed))
  = (Ok 37, snd (System.save_volume env_ok 37 installed)) /\
  System.get_volume env_ok (snd (System.save_volume env_ok (-1200) installed))
  = (Ok (-1200), snd (System.save_volume env_ok (-1200) installed)).
Proof.
  split.
  - apply (volume_round_trip_any env_ok 37 installed);
      [evaluate | apply returned; evaluate | evaluate | evaluate].
  - apply (volume_round_trip_any env_ok (-1200) installed);
      [evaluate | apply returned; evaluate | evaluate | evaluate].
Defined.

(** X24: moving the volume slider never raises: [_on_volume_changed]
    returns whether the volume could be saved or not, and changes the text
    of no file but the volume file. *)
Theorem on_volume_changed_never_raises env value w :
  fst (App._on_volume_changed env value w) = Ok tt /\
  forall q, q <> System.VOLUME_FILE env ->
            files (snd (App._on_volume_changed env value w)) !! q = files w !! q.
Proof.
  unfold App._on_volume_changed, bind, ret.
  destruct (save_volume_never_raises env value w) as [b Hb].
  pose proof (fun q Hq => save_volume_keeps env q value Hq w) as Hk.
  destruct (System.save_volume env value w) as [[b'|e] w1]; simpl in Hb;
    [|discriminate].
  split; [reflexivity|]. intros q Hq. exact (Hk q Hq).
Qed.

Lemma on_volume_changed_never_raises_witness :
  fst (App._on_volume_changed env_config_read_only 80 playing) = Ok tt /\
  files (snd (App._on_volume_changed env_ok 80 playing)) !! App.STATE_FILE env_ok
  = Some "/videos/forest.mp4".
Proof.
  split.
  - apply (on_volume_changed_never_raises env_config_read_only 80 playing).
  - rewrite (proj2 (on_volume_changed_never_raises env_ok 80 playing)
               (App.STATE_FILE env_ok) (state_file_not_volume_file (home env_ok))).
    reflexivity.
Defined.

(** X16: a path that [save_current_wallpaper] has saved is what
    [get_current_wallpaper] reports afterwards, provided the service is
    reported active, the path has no white space around it, is not empty
    and exists, and the state file can be read. *)
Theorem saved_wallpaper_is_reported env path w w1 st :
  App.save_current_wallpaper env path w = (Ok tt, w1) ->
  fst (System.get_service_status env w1) = Ok st ->
  System.active st = true ->
  strip path = path ->
  path <> "" ->
  (is_file path w || is_dir path w) = true ->
  fault env (OpOpen (App.STATE_FILE env)) = None ->
  fault env (OpRead (App.STATE_FILE env)) = None ->
  fst (App.get_current_wallpaper env w1) = Ok (Some path).
Proof.
  intros Hsave Hst Hactive Hstrip Hne Hex Ho Hr.
  apply save_current_wallpaper_ok_inv in Hsave as [Hf Hd].
  assert (Hs : files w1 !! App.STATE_FILE env = Some path).
  { rewrite Hf. apply lookup_insert_eq. }
  rewrite (get_current_wallpaper_reads env w1 path Hs Ho Hr), Hstrip.
  rewrite get_service_status_result in Hst. injection Hst as ->. rewrite Hactive.
  assert (Hex1 : (is_file path w1 || is_dir path w1) = true).
  { apply orb_true_iff in Hex as [Hfile|Hdir]; apply orb_true_iff.
    - left. revert Hfile. unfold is_file. rewrite !bool_decide_eq_true, Hf.
      intros [x Hx]. destruct (decide (App.STATE_FILE env = path)) as [->|Hn].
      + rewrite lookup_insert_eq. eauto.
      + rewrite lookup_insert_ne by exact Hn. eauto.
    - right. apply Hd, Hdir. }
  rewrite Hex1.
  destruct (String.eqb_spec path ""); [contradiction | reflexivity].
Qed.

Lemma saved_wallpaper_is_reported_witness :
  fst (App.get_current_wallpaper env_ok
         (snd (App.save_current_wallpaper env_ok "/videos/forest.mp4" playing)))
  = Ok (Some "/videos/forest.mp4").
Proof.
  apply (saved_wallpaper_is_reported env_ok "/videos/forest.mp4" playing _
           (System.reported_status env_ok));
    [apply returned; evaluate | evaluate..].
Defined.

(** X17: when [apply_wallpaper] has returned [True] and the state could be
    saved, [_on_apply] goes on with the refresh of the list, and the
    persisted active path is the path of the applied wallpaper, however the
    refresh ends. *)
Theorem on_apply_success_persists env wallpaper w w1 w2 :
  System.apply_wallpaper env (Scanner.file_path wallpaper) w = (Ok true, w1) ->
  App.save_current_wallpaper env (Scanner.file_path wallpaper) w1 = (Ok tt, w2) ->
  App._on_apply env (Some wallpaper) w = App._load_wallpapers env w2 /\
  App.persisted env (snd (App._on_apply env (Some wallpaper) w))
  = Some (Scanner.file_path wallpaper).
Proof.
  intros Happ Hsave.
  assert (Hon : App._on_apply env (Some wallpaper) w = App._load_wallpapers env w2).
  { unfold App._on_apply, bind. rewrite Happ, Hsave. reflexivity. }
  split; [exact Hon|]. rewrite Hon. unfold App.persisted.
  destruct (_load_wallpapers_same_store env w2) as [Hf _]. rewrite Hf.
  apply save_current_wallpaper_ok_inv in Hsave as [-> _]. apply lookup_insert_eq.
Qed.

Lemma on_apply_success_persists_witness :
  App.persisted env_ok (snd (App._on_apply env_ok (Some ocean) playing))
  = Some (Scanner.file_path ocean).
Proof.
  apply (on_apply_success_persists env_ok ocean playing
           (snd (System.apply_wallpaper env_ok (Scanner.file_path ocean) playing))
           (snd (App.save_current_wallpaper env_ok (Scanner.file_path ocean)
                   (snd (System.apply_wallpaper env_ok (Scanner.file_path ocean) playing)))));
    apply returned; evaluate.
Defined.

(** X18: a [clear_current_wallpaper] that returned has removed the state
    file and nothing else, and clearing again changes nothing and returns
    as well (the state-file path not being a directory). *)
Theorem clear_current_wallpaper_twice env w w1 :
  is_dir (App.STATE_FILE env) w = false ->
  App.clear_current_wallpaper env w = (Ok tt, w1) ->
  files w1 = delete (App.STATE_FILE env) (files w) /\
  dirs w1 = dirs w /\
  App.clear_current_wallpaper env w1 = (Ok tt, w1).
Proof.
  intros Hd Hclear. apply clear_ok_inv in Hclear as ->. simpl.
  repeat split. apply clear_absent.
  - simpl. apply lookup_delete_eq.
  - exact Hd.
Qed.

Lemma clear_current_wallpaper_twice_witness :
  App.persisted env_ok (snd (App.clear_current_wallpaper env_ok playing)) = None /\
  App.clear_current_wallpaper env_ok (snd (App.clear_current_wallpaper env_ok playing))
  = (Ok tt, snd (App.clear_current_wallpaper env_ok playing)).
Proof.
  destruct (clear_current_wallpaper_twice env_ok playing
              (snd (App.clear_current_wallpaper env_ok playing)))
    as (Hf & _ & Hagain); [evaluate | apply returned; evaluate |].
  split; [|exact Hagain].
  unfold App.persisted. rewrite Hf. apply lookup_delete_eq.
Defined.

(** X19: reading never writes: the status query, the look-up of the
    current wallpaper, the volume read, the scan and the refresh of the
    list leave every file and every directory as they were, also when they
    raise. *)
Theorem queries_change_no_file env w :
  same_store w (snd (System.get_service_status env w)) /\
  same_store w (snd (App.get_current_wallpaper env w)) /\
  snd (System.get_volume env w) = w /\
  (forall flt, snd (Scanner.scan env flt w) = w) /\
  same_store w (snd (App._load_wallpapers env w)).
Proof.
  split; [apply get_service_status_same_store|].
  split; [apply get_current_wallpaper_same_store|].
  split; [|split; [|apply _load_wallpapers_same_store]].
  - assert (H : respects eq (System.get_volume env)).
    { unfold System.get_volume. frame_still. }
    symmetry. apply H.
  - intros flt. symmetry. apply (scan_still env flt w).
Qed.

(** X20: when both queries can be run, the status has [active] exactly
    when [is-active] exited with 0, [enabled] exactly when [is-enabled]
    exited with 0, and as text the stripped output of [is-active], whatever
    the exit codes; the enablement query is issued only after the liveness
    query could be run. *)
Theorem get_service_status_answers env w :
  (forall rc out rc' out',
      systemctl env IsActive = Exited rc out ->
      systemctl env IsEnabled = Exited rc' out' ->
      fst (System.get_service_status env w)
      = Ok {| System.active := rc =? 0; System.enabled := rc' =? 0;
              System.status := strip out |}) /\
  commands (snd (System.get_service_status env w))
  = commands w ++ match systemctl env IsActive with
                  | Exited _ _ => [IsActive; IsEnabled]
                  | LaunchError _ => [IsActive]
                  end.
Proof.
  split; [|apply get_service_status_commands].
  intros rc out rc' out' Ha He.
  rewrite get_service_status_result. unfold System.reported_status.
  rewrite Ha, He. reflexivity.
Qed.

Lemma get_service_status_answers_witness :
  fst (System.get_service_status env_nothing_running installed)
  = Ok {| System.active := false; System.enabled := true; System.status := "inactive" |}.
Proof.
  apply (proj1 (get_service_status_answers env_nothing_running installed)
           3 "inactive" 0 "enabled"); reflexivity.
Defined.

(** X21: the refresh of the list, when the current wallpaper could be
    looked up and the scan returned: it records the running path, and then
    shows one entry per item of the catalogue, in the order of the
    catalogue, marked as current exactly when the path of the item is the
    running path; for an empty catalogue it shows nothing, and warns that
    Wallpaper Engine was not found exactly when there is no content
    root. *)
Theorem load_wallpapers_shows_catalogue env w running w1 ws w2 :
  App.get_current_wallpaper env (with_log (log w ++ [EvSidebarClear]) w)
  = (Ok running, w1) ->
  Scanner.scan env true (with_running running w1) = (Ok ws, w2) ->
  App._load_wallpapers env w
  = (Ok tt,
     with_log
       (log w1 ++
        match ws with
        | [] =>
            match find (fun p => is_dir p w1) (Config.WORKSHOP_PATHS (home env)) with
            | None => [EvWarning "Wallpaper Engine Not Found"]
            | Some _ => []
            end
        | _ => map (sidebar_entry running) ws
        end)
       (with_running running w1)).
Proof.
  intros Hcur Hscan.
  pose proof (scan_still env true (with_running running w1)) as Hw2.
  rewrite Hscan in Hw2. simpl in Hw2. subst w2.
  unfold App._load_wallpapers, bind at 1. unfold emit at 1.
  unfold bind at 1. rewrite Hcur. unfold bind at 1 2. rewrite Hscan.
  destruct ws as [|item ws].
  - unfold bind. rewrite get_workshop_path_first_hit_aux.
    change (is_dir ?p (with_running running w1)) with (is_dir p w1).
    destruct (find _ _); unfold emit, ret; [|reflexivity].
    rewrite app_nil_r. destruct w1; reflexivity.
  - rewrite add_wallpapers_log. reflexivity.
Qed.

Lemma load_wallpapers_shows_catalogue_witness :
  App._load_wallpapers (env_metadata ocean_complete) library_playing
  = (Ok tt,
     with_log
       (log (looked_up (env_metadata ocean_complete) library_playing) ++
        match catalogue (env_metadata ocean_complete)
                (with_running (Some ocean_in_library)
                   (looked_up (env_metadata ocean_complete) library_playing)) with
        | [] =>
            match find (fun p => is_dir p (looked_up (env_metadata ocean_complete) library_playing))
                    (Config.WORKSHOP_PATHS (home (env_metadata ocean_complete))) with
            | None => [EvWarning "Wallpaper Engine Not Found"]
            | Some _ => []
            end
        | _ =>
            map (sidebar_entry (Some ocean_in_library))
              (catalogue (env_metadata ocean_complete)
                 (with_running (Some ocean_in_library)
                    (looked_up (env_metadata ocean_complete) library_playing)))
        end)
       (with_running (Some ocean_in_library)
          (looked_up (env_metadata ocean_complete) library_playing))).
Proof.
  apply (load_wallpapers_shows_catalogue (env_metadata ocean_complete) library_playing
           (Some ocean_in_library)
           (looked_up (env_metadata ocean_complete) library_playing)
           (catalogue (env_metadata ocean_complete)
              (with_running (Some ocean_in_library)
                 (looked_up (env_metadata ocean_complete) library_playing)))
           (with_running (Some ocean_in_library)
              (looked_up (env_metadata ocean_complete) library_playing)));
    [apply returned; evaluate | apply scan_returned; evaluate].
Defined.

End Properties.
